(** * kilaa: the multi-file budget analysis app (src/app.py)

    A shallow embedding of [process_data] (the ingestion pipeline, lines
    12-34 of app.py) and of the top-level analysis block (lines 36-114),
    with the properties of the specification that concern them.

    Modelling choices, all taken from the source:
    - a pandas cell is the missing value NaN, a number or a Python string;
      a number is kept by its value: an integer, a float that is not an
      integer, or an infinity;
    - the subtraction of two columns, [df['Tot'] - df['TotExp']], belongs
      to pandas and numpy (int64 arithmetic wraps around, float64
      arithmetic rounds, and what a text operand does depends on the dtype
      of its column): it is a parameter, with the facts about it that the
      properties need;
    - a DataFrame is its ordered column index and its rows in order, a row
      being a finite map from column name to cell;
    - [pd.read_excel] and [pd.read_csv] are parameters: they return a frame
      or raise;
    - the calls to Streamlit made by the code are recorded, in order, in a
      log; a Python exception ends the run and is the run's outcome. *)

From stdpp Require Import gmap strings list.
From Stdlib Require Import ZArith.

Local Open Scope Z_scope.
Local Open Scope string_scope.
Local Open Scope list_scope.

(** ** Python values and exceptions *)

(** The value of a number cell: an int64, a Python int, or a float64 that
    is not NaN. A finite float is an integer or, in lowest terms, an odd
    numerator over a power of two; [Frac k e] is [(2k+1) / 2^e]. Equal
    values are one number, as [==] has it: 0, 0.0 and -0.0 are [Int 0]. *)
Inductive number :=
| Int (z : Z)
| Frac (k : Z) (e : positive)
| Inf (negative : bool).

Coercion Int : Z >-> number.

Global Instance number_eq_dec : EqDecision number.
Proof. solve_decision. Defined.

Global Instance number_countable : Countable number.
Proof.
  refine (inj_countable'
    (λ x, match x with
          | Int z => inl z
          | Frac k e => inr (inl (k, e))
          | Inf b => inr (inr b)
          end)
    (λ x, match x with
          | inl z => Int z
          | inr (inl (k, e)) => Frac k e
          | inr (inr b) => Inf b
          end) _).
  by intros [].
Defined.

(** A finite number is [numerator / 2^exponent]. *)
Definition numerator (x : number) : Z :=
  match x with
  | Int z => z
  | Frac k _ => 2 * k + 1
  | Inf _ => 0
  end.

Definition exponent (x : number) : nat :=
  match x with
  | Frac _ e => Pos.to_nat e
  | _ => O
  end.

(** [x < y] on numbers. *)
Definition number_ltb (x y : number) : bool :=
  match x, y with
  | Inf true, Inf true => false
  | Inf true, _ => true
  | _, Inf true => false
  | Inf false, _ => false
  | _, Inf false => true
  | _, _ => (numerator x * 2 ^ Z.of_nat (exponent y)
             <? numerator y * 2 ^ Z.of_nat (exponent x))%Z
  end.

Definition number_lt (x y : number) : Prop := number_ltb x y = true.

Global Instance number_lt_dec : RelDecision number_lt.
Proof. intros x y. unfold number_lt. apply _. Defined.

Declare Scope number_scope.
Delimit Scope number_scope with number.
Bind Scope number_scope with number.
Notation "x < y" := (number_lt x y) : number_scope.
Local Open Scope number_scope.

Inductive value :=
| VNaN                  (* the missing value: float('nan') *)
| VNum (z : number)     (* a number *)
| VStr (s : string).    (* a str object *)

Global Instance value_eq_dec : EqDecision value.
Proof. solve_decision. Defined.

Global Instance value_countable : Countable value.
Proof.
  refine (inj_countable'
    (λ v, match v with
          | VNaN => inl ()
          | VNum z => inr (inl z)
          | VStr s => inr (inr s)
          end)
    (λ x, match x with
          | inl _ => VNaN
          | inr (inl z) => VNum z
          | inr (inr s) => VStr s
          end) _).
  by intros [].
Defined.

(** An exception object: its class and its message. *)
Record exn := Exception { exn_class : string; exn_message : string }.

Definition TypeError (msg : string) : exn := Exception "TypeError" msg.
Definition ValueError (msg : string) : exn := Exception "ValueError" msg.
Definition KeyError (msg : string) : exn := Exception "KeyError" msg.

Inductive outcome (A : Type) :=
| Return (a : A)
| Raise (e : exn).
Global Arguments Return {A} a.
Global Arguments Raise {A} e.

Definition outcome_bind {A B} (f : A → outcome B) (o : outcome A) : outcome B :=
  match o with
  | Return a => f a
  | Raise e => Raise e
  end.

Global Instance outcome_ret : MRet outcome := @Return.
Global Instance outcome_mbind : MBind outcome := @outcome_bind.

(** ** Strings *)

(** [s.endswith(suffix)] *)
Definition endswith (s suffix : string) : bool :=
  let n := String.length s in
  let k := String.length suffix in
  (k <=? n)%nat && String.eqb (String.substring (n - k) k s) suffix.

(** ** pandas: Series and DataFrame *)

Abbreviation row := (gmap string value).
Abbreviation Series := (list value).

Record DataFrame := mkDataFrame {
  columns : list string;   (* df.columns, in order *)
  rows : list row          (* the rows, in positional order *)
}.

(** The cell of a row under a column (NaN where the row has none). *)
Definition cell (c : string) (r : row) : value := default VNaN (r !! c).

(** [pd.isna(v)] *)
Definition isna (v : value) : bool :=
  match v with
  | VNaN => true
  | _ => false
  end.

(** A cell holds a str. *)
Definition is_str (v : value) : bool :=
  match v with
  | VStr _ => true
  | _ => false
  end.



(** [df[c]]: the column as a Series; KeyError when there is no such column. *)
Definition getitem (df : DataFrame) (c : string) : outcome Series :=
  if bool_decide (c ∈ columns df) then Return (cell c <$> rows df)
  else Raise (KeyError c).

(** [df[c] = s]: overwrite column [c], or add it as the last column. The
    series assigned in app.py always has one value per row of [df]. *)
Definition setitem (df : DataFrame) (c : string) (s : Series) : DataFrame :=
  {| columns := if bool_decide (c ∈ columns df) then columns df
                else columns df ++ [c];
     rows := zip_with (λ r v, <[c := v]> r) (rows df) s |}.

(** The rows whose cell under [c] is not missing, in their order. *)
Definition notna_rows (c : string) (rs : list row) : list row :=
  filter (λ r, isna (cell c r) = false) rs.

(** [df.dropna(subset=[c])]: keep the rows whose cell under [c] is not
    missing; KeyError when there is no such column. *)
Definition dropna (c : string) (df : DataFrame) : outcome DataFrame :=
  if bool_decide (c ∈ columns df) then
    Return {| columns := columns df; rows := notna_rows c (rows df) |}
  else Raise (KeyError c).

(** [x - y] on two columns of one frame: the arithmetic of pandas and
    numpy. What the result is depends on the dtypes of the two columns and
    on the version of pandas; it is kept as a parameter. The facts given
    with it hold of every pandas: the result has one value per row; it is
    missing wherever an operand is missing; a text facing another value
    that is not missing makes the subtraction raise TypeError. A text
    facing a missing value is left open: pandas raises for a column of
    strings, and gives NaN for a column of dtype object. *)
Class Pandas := {
  series_sub : Series → Series → outcome Series;
  series_sub_length x y d :
    length x = length y → series_sub x y = Return d → length d = length x;
  series_sub_isna x y d i a b c :
    series_sub x y = Return d →
    x !! i = Some a → y !! i = Some b → d !! i = Some c →
    isna a || isna b = true → isna c = true;
  series_sub_str x y i a b :
    x !! i = Some a → y !! i = Some b →
    isna a = false → isna b = false → is_str a || is_str b = true →
    ∃ e, series_sub x y = Raise e ∧ exn_class e = "TypeError"
}.

(** A row laid out on the columns [cols]: NaN under those it lacks. *)
Definition reindex (cols : list string) (r : row) : row :=
  list_to_map ((λ c, (c, cell c r)) <$> cols).

(** [df[mask]]: the rows under a True of the boolean mask. *)
Definition boolean_index (df : DataFrame) (mask : list bool) : DataFrame :=
  {| columns := columns df;
     rows := zip (rows df) mask ≫= (λ rb : row * bool, if rb.2 then [rb.1] else []) |}.

(** [df[cols]]: the frame of the listed columns, in the listed order;
    KeyError when one of them is not a column. *)
Definition select (df : DataFrame) (cols : list string) : outcome DataFrame :=
  match filter (λ c, c ∉ columns df) cols with
  | [] => Return {| columns := cols; rows := reindex cols <$> rows df |}
  | c :: _ => Raise (KeyError c)
  end.

(** [s.unique()]: the distinct values in order of first appearance. *)
Definition unique (s : Series) : list value :=
  foldl (λ acc v, if bool_decide (v ∈ acc) then acc else acc ++ [v]) [] s.

(** [s.isin(values)] *)
Definition isin (values : list value) (s : Series) : list bool :=
  (λ v, bool_decide (v ∈ values)) <$> s.

(** [s == 0]: element-wise; NaN and str compare unequal to 0. *)
Definition eq_zero (v : value) : bool :=
  match v with
  | VNum z => bool_decide (z = 0)
  | _ => false
  end.

(** [s > 0]: element-wise; NaN compares False, a str makes Python raise. *)
Definition gt_zero (v : value) : outcome bool :=
  match v with
  | VNaN => Return false
  | VNum z => Return (bool_decide (0 < z))
  | VStr _ =>
      Raise (TypeError "'>' not supported between instances of 'str' and 'int'")
  end.

Fixpoint series_gt_zero (s : Series) : outcome (list bool) :=
  match s with
  | [] => mret []
  | v :: s' => b ← gt_zero v; bs ← series_gt_zero s'; mret (b :: bs)
  end.

(** [np.where(cond, a, b)] with scalar [a] and [b]. *)
Definition np_where (cond : list bool) (a b : value) : Series :=
  (λ c : bool, if c then a else b) <$> cond.

(** [s.value_counts()]: how often each non-missing value occurs. *)
Definition value_counts (s : Series) : gmap value nat :=
  foldr (λ v m, if isna v then m else <[v := S (default 0%nat (m !! v))]> m) ∅ s.

(** The union of the column indexes of the frames, in order of first
    appearance ([join='outer'], [sort=False]). *)
Definition union_columns (dfs : list DataFrame) : list string :=
  foldl (λ acc df, acc ++ filter (λ c, c ∉ acc) (columns df)) [] dfs.


(** [pd.concat(dfs, ignore_index=True)] *)
Definition pd_concat (dfs : list DataFrame) : outcome DataFrame :=
  match dfs with
  | [] => Raise (ValueError "No objects to concatenate")
  | _ :: _ =>
      let cols := union_columns dfs in
      Return {| columns := cols;
                rows := dfs ≫= (λ df, reindex cols <$> rows df) |}
  end.

(** ** Streamlit: the calls the script makes, and a run of the script *)

(** The calls that put something on the page. [figure] is what
    matplotlib draws (it stays a parameter). The message of [st.error]
    at line 23 is kept by its two interpolated parts: the file's name and
    the set of missing columns. *)
Inductive st_call (figure : Type) :=
| st_title (s : string)
| st_file_uploader (label : string) (types : list string)
| st_error (file_name : string) (missing : gset string)
| st_sidebar_header (s : string)
| st_sidebar_multiselect (label : string) (options : list string)
| st_subheader (s : string)
| st_multiselect (label : string) (options : list value)
| st_dataframe (df : DataFrame)
| st_bar_chart (counts : gmap value nat)
| st_pyplot (fig : figure).
Global Arguments st_title {figure} s.
Global Arguments st_file_uploader {figure} label types.
Global Arguments st_error {figure} file_name missing.
Global Arguments st_sidebar_header {figure} s.
Global Arguments st_sidebar_multiselect {figure} label options.
Global Arguments st_subheader {figure} s.
Global Arguments st_multiselect {figure} label options.
Global Arguments st_dataframe {figure} df.
Global Arguments st_bar_chart {figure} counts.
Global Arguments st_pyplot {figure} fig.

(** A run: the calls made so far, and how the code ended. *)
Definition run (figure A : Type) : Type := list (st_call figure) * outcome A.

Definition run_ret {figure A} (a : A) : run figure A := ([], Return a).

Definition run_bind {figure A B} (f : A → run figure B) (m : run figure A)
  : run figure B :=
  match m with
  | (log, Return a) => let '(log', o) := f a in (log ++ log', o)
  | (log, Raise e) => (log, Raise e)
  end.

Global Instance run_mret {figure} : MRet (run figure) := @run_ret figure.
Global Instance run_mbind {figure} : MBind (run figure) := @run_bind figure.

(** Make one call to Streamlit. *)
Definition call {figure} (c : st_call figure) : run figure () := ([c], Return ()).

(** Evaluate an expression that may raise. *)
Definition eval {figure A} (o : outcome A) : run figure A := ([], o).

(** An uploaded file: its declared name and its bytes. *)
Record RawFile := mkRawFile {
  name : string;
  content : string
}.

Definition required_columns : gset string :=
  {[ "Code"; "LBType"; "Tot"; "TotExp"; "Sector"; "District" ]}.

(** [required_columns.issubset(cols)] *)
Definition issubset (s : gset string) (cols : list string) : bool :=
  bool_decide (s ⊆ list_to_set cols).

Section App.
Context {figure : Type} {pandas : Pandas}.

(** [pd.read_excel(file, engine='openpyxl')] and [pd.read_csv(file)]. *)
Variable read_excel read_csv : string → outcome DataFrame.

(** ** [process_data], lines 12-34 *)

(** Lines 16-19: the reader is chosen by the name of the file. *)
Definition decode (file : RawFile) : outcome DataFrame :=
  if endswith (name file) ".xlsx" then read_excel (content file)
  else read_csv (content file).

(** Lines 27-30, on a frame that passed the check of line 22. *)
Definition clean (df : DataFrame) : outcome DataFrame :=
  df ← dropna "Code" df;
  tot ← getitem df "Tot";
  totexp ← getitem df "TotExp";
  diff ← series_sub tot totexp;
  mret (setitem df "Difference" diff).

(** The loop of lines 15-32 followed by line 34; [all_data] is the
    accumulator. [None] is Python's None, returned at line 24. *)
Fixpoint process_loop (files : list RawFile) (all_data : list DataFrame)
  : run figure (option DataFrame) :=
  match files with
  | [] => df ← eval (pd_concat all_data); mret (Some df)
  | file :: files' =>
      df ← eval (decode file);
      if negb (issubset required_columns (columns df)) then
        call (st_error (name file)
                (required_columns ∖ list_to_set (columns df)));;
        mret None
      else
        df ← eval (clean df);
        process_loop files' (all_data ++ [df])
  end.

Definition process_data (files : list RawFile) : run figure (option DataFrame) :=
  process_loop files [].

(** [file] goes through one turn of the loop without an error, and
    [df'] is what the turn appends to [all_data]. *)
Definition ingests (file : RawFile) (df' : DataFrame) : Prop :=
  ∃ df, decode file = Return df
        ∧ issubset required_columns (columns df) = true
        ∧ clean df = Return df'.

(** ** The analysis block, lines 36-114 *)

(** Lines 75-87 and 92-108: the sums and the matplotlib figure built from
    them. They read [data] and make a new figure, or raise. *)
Variable totals_figure district_figure : DataFrame → outcome figure.

Definition analysis_labels : list string :=
  [ "Filter Data by LBType";
    "Find Funded & Non-Funded Projects";
    "Compare Total Expense & Total Income";
    "District-wise Expense vs Income";
    "Find Projects Where Funds Were Not Used" ].

(** Each analysis is given the frame bound to [data] and gives back the
    frame bound to [data] when it ends. *)

(** Lines 53-61; [selected_lbtype] is what the multiselect returned. *)
Definition filter_by_lbtype (selected_lbtype : list value) (data : DataFrame)
  : run figure DataFrame :=
  call (st_subheader "Filter Data by LBType");;
  lbtype ← eval (getitem data "LBType");
  let lb_types := unique lbtype in
  call (st_multiselect "Select LBType(s)" lb_types);;
  match selected_lbtype with
  | _ :: _ =>
      lbtype ← eval (getitem data "LBType");
      call (st_dataframe (boolean_index data (isin selected_lbtype lbtype)))
  | [] => call (st_dataframe data)
  end;;
  mret data.

(** Lines 65-70. *)
Definition funded_projects (data : DataFrame) : run figure DataFrame :=
  call (st_subheader "Funded vs Non-Funded Projects");;
  tot ← eval (getitem data "Tot");
  let data :=
    setitem data "Funding Status"
      (np_where (eq_zero <$> tot) (VStr "Not Funded") (VStr "Funded")) in
  status ← eval (getitem data "Funding Status");
  call (st_bar_chart (value_counts status));;
  view ← eval (select data
            ["Code"; "LBType"; "Sector"; "District"; "Tot"; "Funding Status"]);
  call (st_dataframe view);;
  mret data.

(** Lines 74-87. *)
Definition compare_totals (data : DataFrame) : run figure DataFrame :=
  call (st_subheader "Total Expense vs Total Income");;
  fig ← eval (totals_figure data);
  call (st_pyplot fig);;
  mret data.

(** Lines 91-108. *)
Definition district_wise (data : DataFrame) : run figure DataFrame :=
  call (st_subheader "District-wise Comparison of Expense & Income");;
  fig ← eval (district_figure data);
  call (st_pyplot fig);;
  mret data.

(** Lines 112-114. *)
Definition unused_funds (data : DataFrame) : run figure DataFrame :=
  call (st_subheader "Projects Where Funds Were Not Used");;
  totexp ← eval (getitem data "TotExp");
  tot ← eval (getitem data "Tot");
  positive ← eval (series_gt_zero tot);
  call (st_dataframe
          (boolean_index data (zip_with andb (eq_zero <$> totexp) positive)));;
  mret data.

(** [if label in analysis_options: ...] *)
Definition when_selected (label : string) (analysis_options : list string)
    (analysis : DataFrame → run figure DataFrame) (data : DataFrame)
  : run figure DataFrame :=
  if bool_decide (label ∈ analysis_options) then analysis data else mret data.

(** Lines 51-114: the five blocks, in the order of the file. *)
Definition analyses (analysis_options : list string)
    (selected_lbtype : list value) (data : DataFrame) : run figure DataFrame :=
  data ← when_selected "Filter Data by LBType" analysis_options
           (filter_by_lbtype selected_lbtype) data;
  data ← when_selected "Find Funded & Non-Funded Projects" analysis_options
           funded_projects data;
  data ← when_selected "Compare Total Expense & Total Income" analysis_options
           compare_totals data;
  data ← when_selected "District-wise Expense vs Income" analysis_options
           district_wise data;
  when_selected "Find Projects Where Funds Were Not Used" analysis_options
    unused_funds data.

(** The script. Its inputs are what the three input widgets return:
    the uploaded files, the chosen analyses and the chosen LBTypes. It
    ends with the frame bound to [data], if any. [process_data] is defined
    and called under [if uploaded_files:] only; [@st.cache_data] hands the
    script its own copy of what the call returns, which is what [data]
    holds here. *)
Definition app (uploaded_files : list RawFile) (analysis_options : list string)
    (selected_lbtype : list value) : run figure (option DataFrame) :=
  call (st_title "Multi-File Data Analysis App");;
  call (st_file_uploader "Choose one or more files" ["xlsx"; "csv"]);;
  match uploaded_files with
  | [] => mret None
  | _ :: _ =>
      data ← process_data uploaded_files;
      match data with
      | None => mret None
      | Some data =>
          call (st_sidebar_header "Choose Analysis Options");;
          call (st_sidebar_multiselect
                  "Select the analyses you want to perform:" analysis_labels);;
          data ← analyses analysis_options selected_lbtype data;
          mret (Some data)
      end
  end.

End App.

(** ** A pandas for the examples

    Arithmetic on the values themselves, without rounding and without
    wrap-around: what int64 and float64 arithmetic give as long as they are
    exact, as they are on the amounts of the sample files. A text facing a
    missing value gives NaN, as in a column of dtype object. The message
    of its TypeError is cut short to the words that do not depend on the
    operands; no property depends on it. *)

(** [m / 2^e], in lowest terms. *)
Fixpoint dyadic (m : Z) (e : nat) : number :=
  match e with
  | O => Int m
  | S e' => if Z.even m then dyadic (m / 2) e'
            else Frac ((m - 1) / 2) (Pos.of_succ_nat e')
  end.

Definition exact_sub (x y : number) : value :=
  match x, y with
  | Inf a, Inf b => if Bool.eqb a b then VNaN else VNum (Inf a)
  | Inf a, _ => VNum (Inf a)
  | _, Inf b => VNum (Inf (negb b))
  | _, _ =>
      let e := max (exponent x) (exponent y) in
      VNum (dyadic (numerator x * 2 ^ Z.of_nat (e - exponent x)
                    - numerator y * 2 ^ Z.of_nat (e - exponent y)) e)
  end.

Definition exact_sub_cell (a b : value) : outcome value :=
  match a, b with
  | VNaN, _ | _, VNaN => Return VNaN
  | VNum x, VNum y => Return (exact_sub x y)
  | _, _ => Raise (TypeError "unsupported operand type(s) for -")
  end.

(** Element by element; the first failing pair raises. *)
Fixpoint exact_series_sub (x y : Series) : outcome Series :=
  match x, y with
  | a :: x', b :: y' =>
      d ← exact_sub_cell a b;
      ds ← exact_series_sub x' y';
      mret (d :: ds)
  | _, _ => mret []
  end.

Definition exact_pandas : Pandas.
Proof.
  refine {| series_sub := exact_series_sub |}.
  - intros x. induction x as [|a x IH]; intros [|b y] d Hlen; cbn;
      try (by intros [= <-]); try done.
    unfold mbind, mret, outcome_mbind, outcome_ret.
    destruct (exact_sub_cell a b) as [c|]; cbn [outcome_bind]; [|done].
    destruct (exact_series_sub x y) as [ds|] eqn:Hds; cbn [outcome_bind]; [|done].
    intros [= <-]. cbn. f_equal. apply (IH y); [by injection Hlen|done].
  - intros x. induction x as [|a x IH]; intros [|b y] d i a' b' c; cbn;
      try done.
    unfold mbind, mret, outcome_mbind, outcome_ret.
    destruct (exact_sub_cell a b) as [c0|] eqn:Hc0; cbn [outcome_bind]; [|done].
    destruct (exact_series_sub x y) as [ds|] eqn:Hds; cbn [outcome_bind]; [|done].
    intros [= <-]. destruct i as [|i]; cbn.
    + intros [= <-] [= <-] [= <-] Hna.
      destruct a, b; cbn in *; by simplify_eq.
    + intros Ha Hb Hc Hna. by apply (IH y ds i a' b' c).
  - intros x. induction x as [|a x IH]; intros [|b y] i a' b'; cbn; try done.
    unfold mbind, mret, outcome_mbind, outcome_ret.
    destruct i as [|i]; cbn.
    + intros [= <-] [= <-] Ha Hb Hstr.
      destruct a, b; cbn in *; try done; by eexists.
    + intros Ha Hb Hna Hnb Hstr.
      destruct (exact_sub_cell a b) as [c|e] eqn:Hc; cbn [outcome_bind].
      * destruct (IH y i a' b') as (e & -> & He); try done. by exists e.
      * exists e. split; [done|]. destruct a, b; cbn in Hc; by simplify_eq.
Defined.

(** ** Sample files

    Small comma-separated texts, with the frames [pd.read_csv] decodes
    them to. None of them is a zip archive, so [pd.read_excel] raises on
    each. *)

Definition nl : string := String (Ascii.ascii_of_nat 10) "".

Definition header : string := "Code,LBType,Tot,TotExp,Sector,District" +:+ nl.

Definition csv_a : string := header +:+ "1,X,100,80,S1,D1" +:+ nl.
Definition csv_b : string :=
  header +:+ ",Y,0,0,S2,D2" +:+ nl +:+ "2,Y,50,50,S2,D2" +:+ nl.
Definition csv_no_sector : string :=
  "Code,LBType,Tot,TotExp,District" +:+ nl +:+ "3,Z,10,5,D3" +:+ nl.
Definition csv_text_tot : string := header +:+ "4,X,abc,80,S1,D1" +:+ nl.
Definition csv_null_tot : string := header +:+ "5,X,,80,S1,D1" +:+ nl.

Definition six_columns : list string :=
  ["Code"; "LBType"; "Tot"; "TotExp"; "Sector"; "District"].

Definition record (code : value) (lbtype : string) (tot totexp : value)
    (sector district : string) : row :=
  list_to_map [("Code", code); ("LBType", VStr lbtype); ("Tot", tot);
               ("TotExp", totexp); ("Sector", VStr sector);
               ("District", VStr district)].

Definition frame_a : DataFrame :=
  mkDataFrame six_columns [record (VNum 1) "X" (VNum 100) (VNum 80) "S1" "D1"].
Definition frame_b : DataFrame :=
  mkDataFrame six_columns
    [record VNaN "Y" (VNum 0) (VNum 0) "S2" "D2";
     record (VNum 2) "Y" (VNum 50) (VNum 50) "S2" "D2"].
Definition frame_no_sector : DataFrame :=
  mkDataFrame ["Code"; "LBType"; "Tot"; "TotExp"; "District"]
    [list_to_map [("Code", VNum 3); ("LBType", VStr "Z"); ("Tot", VNum 10);
                  ("TotExp", VNum 5); ("District", VStr "D3")]].
Definition frame_text_tot : DataFrame :=
  mkDataFrame six_columns [record (VNum 4) "X" (VStr "abc") (VNum 80) "S1" "D1"].
Definition frame_null_tot : DataFrame :=
  mkDataFrame six_columns [record (VNum 5) "X" VNaN (VNum 80) "S1" "D1"].

Definition sample_read_csv (text : string) : outcome DataFrame :=
  if String.eqb text csv_a then Return frame_a
  else if String.eqb text csv_b then Return frame_b
  else if String.eqb text csv_no_sector then Return frame_no_sector
  else if String.eqb text csv_text_tot then Return frame_text_tot
  else if String.eqb text csv_null_tot then Return frame_null_tot
  else Raise (Exception "ParserError" "Error tokenizing data").

Definition sample_read_excel (text : string) : outcome DataFrame :=
  Raise (Exception "BadZipFile" "File is not a zip file").

Definition sample_figure (data : DataFrame) : outcome () := Return ().

Definition file_a : RawFile := mkRawFile "a.csv" csv_a.
Definition file_b : RawFile := mkRawFile "b.csv" csv_b.
Definition file_no_sector : RawFile := mkRawFile "no_sector.csv" csv_no_sector.
Definition file_text_tot : RawFile := mkRawFile "budget.csv" csv_text_tot.
Definition file_null_tot : RawFile := mkRawFile "null_tot.csv" csv_null_tot.
Definition file_txt : RawFile := mkRawFile "budget.txt" csv_a.

(** The text of [budget.csv] under another name. *)
Definition file_text_tot_renamed : RawFile := mkRawFile "ledger.csv" csv_text_tot.

(** A workbook. Its bytes are not spelled out; [xlsx_ledger] stands for
    them. Its sheet has the six columns and three rows: one without a Code
    and with the text n/a as Tot, one with the text pending as Tot and an
    empty TotExp, and one with numbers. A column of a sheet that mixes
    texts and numbers is read as a column of dtype object, each cell with
    its own value. *)
Definition xlsx_ledger : string := "ledger.xlsx: Code,LBType,Tot,TotExp,Sector,District".

Definition frame_ledger : DataFrame :=
  mkDataFrame six_columns
    [record VNaN "X" (VStr "n/a") (VNum 10) "S1" "D1";
     record (VNum 7) "X" (VStr "pending") VNaN "S1" "D1";
     record (VNum 8) "Y" (VNum 100) (VNum 80) "S2" "D2"].

Definition sample_read_excel_more (bytes : string) : outcome DataFrame :=
  if String.eqb bytes xlsx_ledger then Return frame_ledger
  else sample_read_excel bytes.

Definition file_ledger : RawFile := mkRawFile "ledger.xlsx" xlsx_ledger.

(** The table [process_data] returns on [file_a; file_b]. *)
Definition with_difference (d : value) (r : row) : row := <["Difference" := d]> r.

Definition table_ab : DataFrame :=
  mkDataFrame (six_columns ++ ["Difference"])
    [with_difference (VNum 20) (record (VNum 1) "X" (VNum 100) (VNum 80) "S1" "D1");
     with_difference (VNum 0) (record (VNum 2) "Y" (VNum 50) (VNum 50) "S2" "D2")].

(** The table [process_data] returns on [file_a] alone, and on [file_txt]. *)
Definition table_a : DataFrame :=
  mkDataFrame (six_columns ++ ["Difference"])
    [with_difference (VNum 20) (record (VNum 1) "X" (VNum 100) (VNum 80) "S1" "D1")].

(** [table_ab] after the funding-status analysis. *)
Definition table_ab_status : DataFrame :=
  mkDataFrame (six_columns ++ ["Difference"; "Funding Status"])
    (<["Funding Status" := VStr "Funded"]> <$> rows table_ab).

(** The table [process_data] returns on [file_null_tot]. *)
Definition table_null_tot : DataFrame :=
  mkDataFrame (six_columns ++ ["Difference"])
    [with_difference VNaN (record (VNum 5) "X" VNaN (VNum 80) "S1" "D1")].

(** The table [process_data] returns on [file_ledger]. *)
Definition table_ledger : DataFrame :=
  mkDataFrame (six_columns ++ ["Difference"])
    [with_difference VNaN (record (VNum 7) "X" (VStr "pending") VNaN "S1" "D1");
     with_difference (VNum 20) (record (VNum 8) "Y" (VNum 100) (VNum 80) "S2" "D2")].

(** A table with a Tot of zero, a positive Tot and a missing Tot. *)
Definition table_funding : DataFrame :=
  mkDataFrame (six_columns ++ ["Difference"])
    [with_difference (VNum 0) (record (VNum 6) "Y" (VNum 0) (VNum 0) "S2" "D2");
     with_difference (VNum 20) (record (VNum 1) "X" (VNum 100) (VNum 80) "S1" "D1");
     with_difference VNaN (record (VNum 5) "X" VNaN (VNum 80) "S1" "D1")].

Definition table_funding_status : DataFrame :=
  mkDataFrame (six_columns ++ ["Difference"; "Funding Status"])
    (zip_with (λ r v, <["Funding Status" := VStr v]> r) (rows table_funding)
       ["Not Funded"; "Funded"; "Funded"]).

(** What the funding-status analysis puts on the page for [table_funding]. *)
Definition funding_page : list (st_call ()) :=
  Eval vm_compute in (funded_projects table_funding).1.

Definition sample_process_data (files : list RawFile) : run () (option DataFrame) :=
  process_data (pandas:=exact_pandas) sample_read_excel sample_read_csv files.

Definition sample_app (files : list RawFile) (analysis_options : list string)
    (selected_lbtype : list value) : run () (option DataFrame) :=
  app (pandas:=exact_pandas) sample_read_excel sample_read_csv
    sample_figure sample_figure files analysis_options selected_lbtype.

(** ** Vocabulary of the properties *)

(** [out] is the row the pipeline makes of the source row [r] in a table
    whose columns are [cols]: [r] with its Difference, laid out on [cols]. *)
Definition output_row (cols : list string) (r out : row) : Prop :=
  ∃ d, out = reindex cols (<["Difference" := d]> r).

(** A frame without its rows that have no Code. *)
Definition without_null_codes (df : DataFrame) : DataFrame :=
  {| columns := columns df; rows := notna_rows "Code" (rows df) |}.

(** A reader from which the rows without a Code never come out. *)
Definition drop_null_codes (reader : string → outcome DataFrame) (text : string)
  : outcome DataFrame :=
  match reader text with
  | Return df => Return (without_null_codes df)
  | Raise e => Raise e
  end.

(** A frame is rectangular: every row has a cell under each column of the
    frame, and under no other name. *)
Definition rectangular (df : DataFrame) : Prop :=
  Forall (λ r : row, dom r = list_to_set (C:=gset string) (columns df)) (rows df).

(** Line 113, on one row: [TotExp == 0] and [Tot > 0]. *)
Definition funds_unused (r : row) : bool :=
  eq_zero (cell "TotExp" r) &&
  match cell "Tot" r with
  | VNum z => bool_decide (0 < z)
  | _ => false
  end.

(** Line 66, on one row: the label given to it. *)
Definition funding_label (r : row) : value :=
  if eq_zero (cell "Tot" r) then VStr "Not Funded" else VStr "Funded".

(** *** More sample files *)

(** The text of [csv_a] uploaded under a spreadsheet name. *)
Definition file_a_xlsx : RawFile := mkRawFile "a.xlsx" csv_a.

(** A file with a seventh column. *)
Definition csv_remarks : string :=
  "Code,LBType,Tot,TotExp,Sector,District,Remarks" +:+ nl +:+
  "8,Z,30,10,S3,D3,late" +:+ nl.

Definition frame_remarks : DataFrame :=
  mkDataFrame (six_columns ++ ["Remarks"])
    [<["Remarks" := VStr "late"]>
       (record (VNum 8) "Z" (VNum 30) (VNum 10) "S3" "D3")].

Definition file_remarks : RawFile := mkRawFile "remarks.csv" csv_remarks.

Definition sample_read_csv_more (text : string) : outcome DataFrame :=
  if String.eqb text csv_remarks then Return frame_remarks
  else sample_read_csv text.


(** The table [process_data] returns on [file_a; file_remarks]. *)
Definition table_a_remarks : DataFrame :=
  mkDataFrame (six_columns ++ ["Difference"; "Remarks"])
    [<["Remarks" := VNaN]>
       (with_difference (VNum 20)
          (record (VNum 1) "X" (VNum 100) (VNum 80) "S1" "D1"));
     with_difference (VNum 20)
       (<["Remarks" := VStr "late"]>
          (record (VNum 8) "Z" (VNum 30) (VNum 10) "S3" "D3"))].

(** A table with no expenditure on two funded rows, and one with a text
    as Tot. *)
Definition table_unused : DataFrame :=
  mkDataFrame (six_columns ++ ["Difference"])
    [with_difference (VNum 40) (record (VNum 1) "X" (VNum 40) (VNum 0) "S1" "D1");
     with_difference (VNum 0) (record (VNum 2) "Y" (VNum 0) (VNum 0) "S2" "D2");
     with_difference (VNum 20) (record (VNum 3) "X" (VNum 100) (VNum 80) "S1" "D1");
     with_difference VNaN (record (VNum 4) "Y" VNaN (VNum 0) "S2" "D2");
     with_difference (VNum 7) (record (VNum 5) "Z" (VNum 7) (VNum 0) "S3" "D3")].

Definition table_text_tot : DataFrame :=
  mkDataFrame (six_columns ++ ["Difference"])
    [with_difference (VNum 40) (record (VNum 1) "X" (VNum 40) (VNum 0) "S1" "D1");
     with_difference VNaN (record (VNum 9) "X" (VStr "abc") VNaN "S1" "D1")].

(** The two analyses that read Tot, chosen in the reverse of their order
    in the script, and what they put on the page for [table_funding]. *)
Definition two_analyses : list string :=
  ["Find Projects Where Funds Were Not Used";
   "Find Funded & Non-Funded Projects"].

Definition two_analyses_page : list (st_call ()) :=
  Eval vm_compute in
    (analyses sample_figure sample_figure two_analyses [] table_funding).1.

(** Case analysis on the first computation of a chain of binds. *)
Ltac bind_cases H :=
  unfold mbind, mret, outcome_mbind, outcome_ret in H;
  match type of H with
  | context [outcome_bind _ ?o] =>
      let E := fresh "E" in
      destruct o eqn:E; cbn [outcome_bind] in H; [|discriminate H]
  end.

(** ** Properties *)

Example endswith_xlsx :
  endswith "budget.xlsx" ".xlsx" = true
  ∧ endswith "budget.XLSX" ".xlsx" = false
  ∧ endswith "xlsx" ".xlsx" = false
  ∧ endswith "budget.csv" ".xlsx" = false.
Proof. by vm_compute. Qed.

(** The example of the specification: two files, one row without a Code;
    two rows come out, with Differences 20 and 0, in the order of arrival. *)
Example process_data_ab :
  sample_process_data [file_a; file_b] = ([], Return (Some table_ab)).
Proof. vm_compute. reflexivity. Qed.

(** *** Cells, rows and series *)

Lemma cell_insert_eq c v (r : row) : cell c (<[c := v]> r) = v.
Proof. unfold cell. by rewrite lookup_insert_eq. Qed.

Lemma cell_insert_ne c c' v (r : row) : c ≠ c' → cell c' (<[c := v]> r) = cell c' r.
Proof. intros. unfold cell. by rewrite lookup_insert_ne. Qed.

Lemma lookup_reindex cols c (r : row) :
  reindex cols r !! c = if bool_decide (c ∈ cols) then Some (cell c r) else None.
Proof.
  unfold reindex. induction cols as [|c' cols IH].
  - by rewrite fmap_nil, list_to_map_nil, lookup_empty.
  - rewrite fmap_cons, list_to_map_cons. cbn [fst snd].
    destruct (decide (c' = c)) as [->|Hne].
    + rewrite lookup_insert_eq, bool_decide_eq_true_2; [done|left].
    + rewrite lookup_insert_ne, IH by done.
      destruct (decide (c ∈ cols)) as [Hin|Hin].
      * rewrite !bool_decide_eq_true_2; [done|by right|done].
      * rewrite !bool_decide_eq_false_2; [done| |done].
        intros [?|?]%elem_of_cons; congruence.
Qed.

Lemma cell_reindex cols c (r : row) : c ∈ cols → cell c (reindex cols r) = cell c r.
Proof.
  intros Hin. unfold cell at 1.
  by rewrite lookup_reindex, bool_decide_eq_true_2.
Qed.

Lemma fmap_cell_reindex cols c (rs : list row) :
  c ∈ cols → cell c <$> (reindex cols <$> rs) = cell c <$> rs.
Proof.
  intros Hc. induction rs as [|r rs IH]; [done|].
  rewrite !fmap_cons, IH. by rewrite cell_reindex.
Qed.

Lemma fmap_cell_setitem_eq c (rs : list row) (ds : Series) :
  length ds = length rs →
  cell c <$> zip_with (λ r v, <[c := v]> r) rs ds = ds.
Proof.
  revert ds. induction rs as [|r rs IH]; intros [|d ds] Hlen; try done.
  cbn [zip_with]. rewrite fmap_cons, cell_insert_eq, IH; [done|].
  by injection Hlen.
Qed.

Lemma fmap_cell_setitem_ne c c' (rs : list row) (ds : Series) :
  c ≠ c' → length ds = length rs →
  cell c' <$> zip_with (λ r v, <[c := v]> r) rs ds = cell c' <$> rs.
Proof.
  intros Hne. revert ds.
  induction rs as [|r rs IH]; intros [|d ds] Hlen; try done.
  cbn [zip_with]. rewrite !fmap_cons, cell_insert_ne, IH; [done| |done].
  by injection Hlen.
Qed.

Lemma Forall2_zip_with {A B C} (f : A → B → C) l k :
  length l = length k →
  Forall2 (λ a c, ∃ b, c = f a b) l (zip_with f l k).
Proof.
  revert k. induction l as [|a l IH]; intros [|b k] Hlen; try done; cbn.
  constructor; [by exists b|]. apply IH. by injection Hlen.
Qed.

Lemma elem_of_union_columns_acc dfs acc c :
  c ∈ acc → c ∈ foldl (λ acc df, acc ++ filter (λ c, c ∉ acc) (columns df)) acc dfs.
Proof.
  revert acc. induction dfs as [|df dfs IH]; simpl; intros acc Hc; [done|].
  apply IH, elem_of_app. by left.
Qed.

Lemma elem_of_union_columns dfs df c :
  df ∈ dfs → c ∈ columns df → c ∈ union_columns dfs.
Proof.
  unfold union_columns. generalize (@nil string) as acc.
  induction dfs as [|df' dfs IH]; intros acc Hdf Hc.
  - by apply elem_of_nil in Hdf.
  - apply elem_of_cons in Hdf as [->|Hdf]; simpl; [|by apply IH].
    apply elem_of_union_columns_acc.
    destruct (decide (c ∈ acc)); apply elem_of_app; [by left|right].
    by apply list_elem_of_filter.
Qed.

(** *** The pipeline, turn by turn *)

Section Pipeline.
Context {figure : Type} {pandas : Pandas}.
Variable read_excel read_csv : string → outcome DataFrame.

Lemma process_loop_nil (all_data : list DataFrame) :
  process_loop read_excel read_csv [] all_data =
  match pd_concat all_data with
  | Return df => (@nil (st_call figure), Return (Some df))
  | Raise e => ([], Raise e)
  end.
Proof. simpl. unfold eval. by destruct (pd_concat all_data). Qed.

Lemma process_loop_cons file files all_data :
  process_loop (figure:=figure) read_excel read_csv (file :: files) all_data =
  match decode read_excel read_csv file with
  | Raise e => ([], Raise e)
  | Return df =>
      if issubset required_columns (columns df) then
        match clean df with
        | Raise e => ([], Raise e)
        | Return df' => process_loop read_excel read_csv files (all_data ++ [df'])
        end
      else ([st_error (name file)
               (required_columns ∖ list_to_set (columns df))], Return None)
  end.
Proof.
  cbn [process_loop]. unfold eval, mbind, run_mbind.
  destruct (decode read_excel read_csv file) as [df|e]; cbn [run_bind]; [|done].
  destruct (issubset required_columns (columns df)); cbn [negb]; [|done].
  destruct (clean df) as [df'|e]; cbn [run_bind]; [|done].
  by destruct (process_loop read_excel read_csv files (all_data ++ [df'])).
Qed.

Lemma process_loop_ingests files dfs rest all_data :
  Forall2 (ingests read_excel read_csv) files dfs →
  process_loop (figure:=figure) read_excel read_csv (files ++ rest) all_data
  = process_loop read_excel read_csv rest (all_data ++ dfs).
Proof.
  intros H. revert all_data.
  induction H as [|file df' files dfs (df & Hdf & Hsub & Hclean) _ IH];
    intros all_data.
  - by rewrite app_nil_r.
  - rewrite <-app_comm_cons, process_loop_cons, Hdf, Hsub, Hclean, IH.
    by rewrite <-app_assoc.
Qed.

Lemma process_loop_Some files all_data (log : list (st_call figure)) table :
  process_loop read_excel read_csv files all_data = (log, Return (Some table)) →
  log = [] ∧ ∃ dfs, Forall2 (ingests read_excel read_csv) files dfs
                    ∧ pd_concat (all_data ++ dfs) = Return table.
Proof.
  revert all_data. induction files as [|file files IH]; intros all_data H.
  - rewrite process_loop_nil in H.
    destruct (pd_concat all_data) as [df|] eqn:Hc; [|done].
    injection H as <- <-. split; [done|]. exists [].
    by rewrite app_nil_r.
  - rewrite process_loop_cons in H.
    destruct (decode read_excel read_csv file) as [df|] eqn:Hdf; [|done].
    destruct (issubset required_columns (columns df)) eqn:Hsub; [|done].
    destruct (clean df) as [df'|] eqn:Hclean; [|done].
    apply IH in H as (-> & dfs & Hdfs & Hc). split; [done|].
    exists (df' :: dfs). split.
    + constructor; [by exists df|done].
    + by rewrite <-app_assoc in Hc.
Qed.

Lemma process_data_Some files (log : list (st_call figure)) table :
  process_data read_excel read_csv files = (log, Return (Some table)) →
  log = [] ∧ ∃ dfs, Forall2 (ingests read_excel read_csv) files dfs
                    ∧ pd_concat dfs = Return table.
Proof. apply process_loop_Some. Qed.

End Pipeline.

(** *** Suffixes *)

Lemma length_append (s t : string) :
  String.length (s +:+ t) = (String.length s + String.length t)%nat.
Proof. induction s as [|a s IH]; simpl; [done|]. by rewrite IH. Qed.

Lemma substring_all (t : string) : String.substring 0 (String.length t) t = t.
Proof. induction t as [|a t IH]; simpl; [done|]. by rewrite IH. Qed.

Lemma substring_append (s t : string) :
  String.substring (String.length s) (String.length t) (s +:+ t) = t.
Proof. induction s as [|a s IH]; simpl; [apply substring_all|done]. Qed.

Lemma endswith_append (stem suffix : string) :
  endswith (stem +:+ suffix) suffix = true.
Proof.
  unfold endswith. rewrite length_append.
  replace (String.length stem + String.length suffix - String.length suffix)%nat
    with (String.length stem) by lia.
  rewrite substring_append, String.eqb_refl, andb_true_r.
  apply Nat.leb_le. lia.
Qed.

(** *** What one turn and the concatenation do to the rows *)

Lemma clean_difference {pandas : Pandas} df df' :
  clean df = Return df' →
  "Code" ∈ columns df ∧ "Tot" ∈ columns df ∧ "TotExp" ∈ columns df
  ∧ ∃ ds, series_sub (cell "Tot" <$> notna_rows "Code" (rows df))
            (cell "TotExp" <$> notna_rows "Code" (rows df)) = Return ds
          ∧ length ds = length (notna_rows "Code" (rows df))
          ∧ df' = setitem {| columns := columns df;
                             rows := notna_rows "Code" (rows df) |}
                    "Difference" ds.
Proof.
  unfold clean, dropna, getitem. intros H.
  destruct (decide ("Code" ∈ columns df)) as [HCode|HCode];
    [rewrite bool_decide_eq_true_2 in H by done
    |rewrite bool_decide_eq_false_2 in H by done; discriminate H].
  unfold mbind, mret, outcome_mbind, outcome_ret in H.
  cbn [outcome_bind columns rows] in H.
  destruct (decide ("Tot" ∈ columns df)) as [HTot|HTot];
    [rewrite (bool_decide_eq_true_2 _ HTot) in H
    |rewrite (bool_decide_eq_false_2 _ HTot) in H; discriminate H].
  destruct (decide ("TotExp" ∈ columns df)) as [HExp|HExp];
    [rewrite (bool_decide_eq_true_2 _ HExp) in H
    |rewrite (bool_decide_eq_false_2 _ HExp) in H; discriminate H].
  cbn [outcome_bind] in H. bind_cases H.
  injection H as <-. split_and!; try done. eexists. split_and!; [done| |done].
  apply series_sub_length in E; [|by rewrite !length_fmap].
  by rewrite E, length_fmap.
Qed.

Lemma clean_Return {pandas : Pandas} df df' :
  clean df = Return df' →
  "Code" ∈ columns df ∧ "Tot" ∈ columns df ∧ "TotExp" ∈ columns df
  ∧ columns df ⊆ columns df' ∧ "Difference" ∈ columns df'
  ∧ Forall2 (λ r r', ∃ d, r' = <["Difference" := d]> r)
      (notna_rows "Code" (rows df)) (rows df').
Proof.
  intros (HCode & HTot & HExp & ds & _ & Hlen & ->)%clean_difference.
  split_and!; try done.
  - unfold setitem; cbn [columns]. case_bool_decide; [done|].
    intros c Hc. apply elem_of_app. by left.
  - unfold setitem; cbn [columns]. case_bool_decide; [done|].
    apply elem_of_app. right. by left.
  - unfold setitem; cbn [rows]. by apply Forall2_zip_with.
Qed.

Lemma pd_concat_Return dfs table :
  pd_concat dfs = Return table →
  rows table = dfs ≫= (λ df, reindex (columns table) <$> rows df)
  ∧ ∀ df, df ∈ dfs → columns df ⊆ columns table.
Proof.
  destruct dfs as [|df0 dfs]; [done|]. cbn [pd_concat].
  intros [= <-]. cbn [rows columns]. split; [done|].
  intros df Hdf c Hc. by eapply elem_of_union_columns.
Qed.

Section Table.
Context {figure : Type} {pandas : Pandas}.
Variable read_excel read_csv : string → outcome DataFrame.

Lemma ingests_blocks cols files dfs' :
  Forall2 (ingests read_excel read_csv) files dfs' →
  (∀ df', df' ∈ dfs' → columns df' ⊆ cols) →
  ∃ dfs blocks,
    Forall2 (λ file df, decode read_excel read_csv file = Return df
                        ∧ issubset required_columns (columns df) = true)
      files dfs
    ∧ dfs' ≫= (λ df', reindex cols <$> rows df') = mjoin blocks
    ∧ Forall2 (λ df block,
                 columns df ⊆ cols ∧ "Difference" ∈ cols
                 ∧ Forall2 (output_row cols) (notna_rows "Code" (rows df)) block)
        dfs blocks.
Proof.
  induction 1 as [|file df' files dfs' (df & Hdf & Hsub & Hclean) _ IH];
    intros Hcols.
  - exists [], []. split_and!; by constructor.
  - destruct IH as (dfs & blocks & Hdfs & Hrows & Hblocks).
    { intros d Hd. apply Hcols. by right. }
    apply clean_Return in Hclean as (_ & _ & _ & Hincl & Hdiff & Hrs).
    assert (columns df' ⊆ cols) as Hdf' by (apply Hcols; left).
    exists (df :: dfs), ((reindex cols <$> rows df') :: blocks).
    split_and!.
    + by constructor.
    + rewrite bind_cons, Hrows. done.
    + constructor; [|done]. split_and!.
      * by etrans.
      * by apply Hdf'.
      * apply Forall2_fmap_r. eapply Forall2_impl; [exact Hrs|].
        cbn beta. intros r r' (d & ->). by exists d.
Qed.

(** The table a successful call returns, block by block: one block per
    file, in the order of the files; the block of a file holds one row per
    source row with a Code, in the order of the source. *)
Lemma table_blocks files (log : list (st_call figure)) table :
  process_data read_excel read_csv files = (log, Return (Some table)) →
  log = [] ∧ ∃ dfs blocks,
    Forall2 (λ file df, decode read_excel read_csv file = Return df
                        ∧ issubset required_columns (columns df) = true)
      files dfs
    ∧ rows table = mjoin blocks
    ∧ Forall2 (λ df block,
                 columns df ⊆ columns table ∧ "Difference" ∈ columns table
                 ∧ Forall2 (output_row (columns table))
                     (notna_rows "Code" (rows df)) block)
        dfs blocks.
Proof.
  intros (-> & dfs' & Hing & Hcat)%process_data_Some. split; [done|].
  apply pd_concat_Return in Hcat as [-> Hcols].
  by apply ingests_blocks.
Qed.

(** Every row of the table comes from a source row with a Code of a frame
    that has the six required columns. *)
Lemma table_rows files (log : list (st_call figure)) table :
  process_data read_excel read_csv files = (log, Return (Some table)) →
  Forall (λ out, ∃ file df r,
            file ∈ files ∧ decode read_excel read_csv file = Return df
            ∧ issubset required_columns (columns df) = true
            ∧ columns df ⊆ columns table ∧ "Difference" ∈ columns table
            ∧ r ∈ rows df ∧ isna (cell "Code" r) = false
            ∧ output_row (columns table) r out)
    (rows table).
Proof.
  intros (_ & dfs & blocks & Hdfs & -> & Hblocks)%table_blocks.
  apply Forall_forall. intros out (block & Hout & Hblock)%list_elem_of_join.
  apply list_elem_of_lookup in Hblock as [i Hi].
  destruct (Forall2_lookup_r _ _ _ _ _ Hblocks Hi) as (df & Hdf & Hincl & Hdiff & Hrs).
  destruct (Forall2_lookup_r _ _ _ _ _ Hdfs Hdf) as (file & Hfile & Hdec & Hsub).
  apply list_elem_of_lookup in Hout as [j Hj].
  destruct (Forall2_lookup_r _ _ _ _ _ Hrs Hj) as (r & Hr & Hrow).
  apply list_elem_of_lookup_2 in Hr.
  apply list_elem_of_filter in Hr as [Hna Hr].
  exists file, df, r. split_and!; try done.
  by eapply list_elem_of_lookup_2.
Qed.

End Table.

Lemma issubset_required cols c :
  issubset required_columns cols = true →
  c ∈ six_columns → c ∈ cols.
Proof.
  unfold issubset, required_columns, six_columns.
  intros Hsub%bool_decide_eq_true Hc.
  rewrite <-(elem_of_list_to_set (C:=gset string)). apply Hsub.
  rewrite !elem_of_union, !elem_of_singleton.
  repeat (apply elem_of_cons in Hc as [->|Hc]); [tauto..|].
  by apply elem_of_nil in Hc.
Qed.

Lemma output_row_cell cols r out c :
  c ∈ cols → c ≠ "Difference" → output_row cols r out → cell c out = cell c r.
Proof.
  intros Hin Hne (d & ->). by rewrite cell_reindex, cell_insert_ne.
Qed.

Lemma notna_rows_idemp c rs : notna_rows c (notna_rows c rs) = notna_rows c rs.
Proof.
  unfold notna_rows. induction rs as [|r rs IH]; [done|].
  rewrite filter_cons. case_decide as Hr; [|done].
  rewrite filter_cons, decide_True by done. by rewrite IH.
Qed.

Lemma clean_without_null_codes {pandas : Pandas} df : clean (without_null_codes df) = clean df.
Proof.
  unfold clean, dropna, without_null_codes. cbn [columns rows].
  by rewrite notna_rows_idemp.
Qed.

(** ** The claims about [process_data] *)

Section Claims.
Context {figure : Type} {pandas : Pandas}.
Variable read_excel read_csv : string → outcome DataFrame.

Lemma decode_drop_null_codes file :
  decode (drop_null_codes read_excel) (drop_null_codes read_csv) file =
  match decode read_excel read_csv file with
  | Return df => Return (without_null_codes df)
  | Raise e => Raise e
  end.
Proof. unfold decode, drop_null_codes. by destruct (endswith _ _). Qed.

Lemma process_loop_drop_null_codes files all_data :
  process_loop (figure:=figure)
    (drop_null_codes read_excel) (drop_null_codes read_csv) files all_data
  = process_loop read_excel read_csv files all_data.
Proof.
  revert all_data. induction files as [|file files IH]; intros all_data; [done|].
  rewrite !process_loop_cons, decode_drop_null_codes.
  destruct (decode read_excel read_csv file) as [df|e]; [|done].
  rewrite clean_without_null_codes. cbn [without_null_codes columns].
  destruct (issubset required_columns (columns df)); [|done].
  destruct (clean df); [apply IH|done].
Qed.

Lemma ingests_subtraction cols file df' :
  ingests read_excel read_csv file df' → columns df' ⊆ cols →
  ∃ df, decode read_excel read_csv file = Return df
    ∧ cell "Tot" <$> (reindex cols <$> rows df')
      = cell "Tot" <$> notna_rows "Code" (rows df)
    ∧ cell "TotExp" <$> (reindex cols <$> rows df')
      = cell "TotExp" <$> notna_rows "Code" (rows df)
    ∧ series_sub (cell "Tot" <$> notna_rows "Code" (rows df))
        (cell "TotExp" <$> notna_rows "Code" (rows df))
      = Return (cell "Difference" <$> (reindex cols <$> rows df')).
Proof.
  intros (df & Hdec & Hsub & Hclean) Hcols. exists df. split; [done|].
  pose proof (clean_Return _ _ Hclean) as (_ & HTot & HExp & Hincl & Hdiff & _).
  apply clean_difference in Hclean as (_ & _ & _ & ds & Hds & Hlen & ->).
  rewrite !fmap_cell_reindex by (apply Hcols; done || by apply Hincl).
  cbn [setitem rows].
  by rewrite fmap_cell_setitem_eq, !fmap_cell_setitem_ne.
Qed.

(** The Difference column, file by file: the block of a file holds the
    Tot and the TotExp of the file's rows with a Code, and as Difference
    what their subtraction returned. *)
Lemma table_subtractions files (log : list (st_call figure)) table :
  process_data read_excel read_csv files = (log, Return (Some table)) →
  ∃ dfs blocks,
    Forall2 (λ file df, decode read_excel read_csv file = Return df) files dfs
    ∧ rows table = mjoin blocks
    ∧ Forall2 (λ df block,
          cell "Tot" <$> block = cell "Tot" <$> notna_rows "Code" (rows df)
          ∧ cell "TotExp" <$> block = cell "TotExp" <$> notna_rows "Code" (rows df)
          ∧ series_sub (cell "Tot" <$> block) (cell "TotExp" <$> block)
            = Return (cell "Difference" <$> block))
        dfs blocks.
Proof.
  intros (_ & dfs' & Hing & Hcat)%process_data_Some.
  apply pd_concat_Return in Hcat as [-> Hcols].
  revert Hcols. generalize (columns table). intros cols.
  induction Hing as [|file df' files dfs' Hfile _ IH]; intros Hcols.
  - exists [], []. split_and!; by constructor.
  - destruct IH as (dfs & blocks & Hdfs & Hrows & Hblocks).
    { intros d Hd. apply Hcols. by right. }
    destruct (ingests_subtraction cols file df' Hfile)
      as (df & Hdec & HT & HE & HD); [apply Hcols; left|].
    exists (df :: dfs), ((reindex cols <$> rows df') :: blocks). split_and!.
    + by constructor.
    + by rewrite bind_cons, Hrows.
    + constructor; [|done]. split_and!; [done..|]. by rewrite HT, HE.
Qed.

Lemma table_null_differences files (log : list (st_call figure)) table :
  process_data read_excel read_csv files = (log, Return (Some table)) →
  Forall (λ r, isna (cell "Tot" r) || isna (cell "TotExp" r) = true →
               cell "Difference" r = VNaN)
    (rows table).
Proof.
  intros (dfs & blocks & _ & -> & Hblocks)%table_subtractions.
  apply Forall_forall. intros r (block & Hr & Hblock)%list_elem_of_join Hna.
  apply list_elem_of_lookup in Hblock as [i Hi].
  destruct (Forall2_lookup_r _ _ _ _ _ Hblocks Hi) as (df & _ & _ & _ & Hsub).
  apply list_elem_of_lookup in Hr as [j Hj].
  assert (isna (cell "Difference" r) = true) as Hd.
  { eapply (series_sub_isna _ _ _ j); [exact Hsub|..|exact Hna];
      by rewrite list_lookup_fmap, Hj. }
  by destruct (cell "Difference" r).
Qed.

Lemma table_codes files (log : list (st_call figure)) table :
  process_data read_excel read_csv files = (log, Return (Some table)) →
  Forall (λ out, ∃ file df r,
            file ∈ files ∧ decode read_excel read_csv file = Return df
            ∧ r ∈ rows df ∧ isna (cell "Code" r) = false
            ∧ cell "Code" out = cell "Code" r)
    (rows table).
Proof.
  intros H%table_rows. eapply Forall_impl; [exact H|]. cbn beta.
  intros out (file & df & r & Hfile & Hdec & Hsub & Hincl & _ & Hr & Hna & Hout).
  exists file, df, r. split_and!; try done.
  apply (output_row_cell (columns table)); [|done|done].
  apply Hincl, (issubset_required _ _ Hsub). by left.
Qed.

Lemma clean_Raise df e :
  issubset required_columns (columns df) = true →
  series_sub (cell "Tot" <$> notna_rows "Code" (rows df))
    (cell "TotExp" <$> notna_rows "Code" (rows df)) = Raise e →
  clean df = Raise e.
Proof.
  intros Hsub He.
  assert (∀ c, c ∈ six_columns → bool_decide (c ∈ columns df) = true) as Hcol.
  { intros c Hc. by apply bool_decide_eq_true_2, (issubset_required _ _ Hsub). }
  unfold clean, dropna, getitem.
  rewrite Hcol by (unfold six_columns; rewrite !elem_of_cons; tauto).
  unfold mbind, outcome_mbind. cbn [outcome_bind columns rows].
  rewrite !Hcol by (unfold six_columns; rewrite !elem_of_cons; tauto).
  cbn [outcome_bind]. by rewrite He.
Qed.


(** C3. When [process_data] returns a table, it has reported no error and
    no row of the table has a missing Code; where the readers deliver no
    empty string as a Code (an empty cell is decoded as the missing value),
    no row has an empty Code either. The rows without a Code have no effect
    at all: the run is the run on the same files read without them. *)
Theorem null_codes_dropped files (log : list (st_call figure)) table :
  process_data read_excel read_csv files = (log, Return (Some table)) →
  log = []
  ∧ Forall (λ r, isna (cell "Code" r) = false) (rows table)
  ∧ (Forall (λ file, ∀ df,
               decode read_excel read_csv file = Return df →
               Forall (λ r, cell "Code" r ≠ VStr "") (rows df)) files →
     Forall (λ r, cell "Code" r ≠ VStr "") (rows table))
  ∧ process_data (drop_null_codes read_excel) (drop_null_codes read_csv) files
    = (log, Return (Some table)).
Proof.
  intros H. pose proof (table_codes _ _ _ H) as Hrows.
  split_and!.
  - by apply process_data_Some in H as [-> _].
  - eapply Forall_impl; [exact Hrows|]. cbn beta.
    intros out (file & df & r & _ & _ & _ & Hna & ->). done.
  - intros Hfiles. eapply Forall_impl; [exact Hrows|]. cbn beta.
    intros out (file & df & r & Hfile & Hdec & Hr & _ & ->).
    rewrite Forall_forall in Hfiles. specialize (Hfiles file Hfile df Hdec).
    rewrite Forall_forall in Hfiles. by apply Hfiles.
  - rewrite <-H. apply process_loop_drop_null_codes.
Qed.

(** C4, as amended. When [process_data] returns a table, every row of it
    has a Code that is not missing; the Difference of a row is missing
    whenever its Tot or its TotExp is missing. *)
Theorem code_present_null_amount_null_difference files
    (log : list (st_call figure)) table :
  process_data read_excel read_csv files = (log, Return (Some table)) →
  Forall (λ r,
      isna (cell "Code" r) = false
      ∧ (isna (cell "Tot" r) || isna (cell "TotExp" r) = true →
         cell "Difference" r = VNaN))
    (rows table).
Proof.
  intros H.
  pose proof (table_codes _ _ _ H) as Hcodes.
  pose proof (table_null_differences _ _ _ H) as Hdiffs.
  rewrite Forall_forall in Hcodes, Hdiffs.
  apply Forall_forall. intros r Hr. split; [|by apply Hdiffs].
  by destruct (Hcodes r Hr) as (_ & _ & r' & _ & _ & _ & Hna & ->).
Qed.


(** C2. When the files before [file] go through the loop
    without an error and the decoded [file] lacks a required column, the
    call makes one report, with the name of [file] and the set of the
    required columns it lacks, and returns None; the files after [file]
    play no part. *)
Theorem missing_columns_reported pre dfs file df post :
  Forall2 (ingests read_excel read_csv) pre dfs →
  decode read_excel read_csv file = Return df →
  issubset required_columns (columns df) = false →
  process_data (figure:=figure) read_excel read_csv (pre ++ file :: post)
  = ([st_error (name file) (required_columns ∖ list_to_set (columns df))],
     Return None)
  ∧ (∀ c, c ∈ required_columns ∖ list_to_set (columns df)
          ↔ c ∈ six_columns ∧ c ∉ columns df)
  ∧ required_columns ∖ list_to_set (columns df) ≠ ∅.
Proof.
  intros Hpre Hdec Hsub.
  assert (∀ c, c ∈ required_columns ∖ list_to_set (columns df)
               ↔ c ∈ six_columns ∧ c ∉ columns df) as Hmissing.
  { intros c. rewrite elem_of_difference, elem_of_list_to_set.
    unfold required_columns, six_columns.
    rewrite !elem_of_union, !elem_of_singleton, !elem_of_cons, elem_of_nil.
    tauto. }
  split_and!; [|done|].
  - unfold process_data.
    by rewrite (process_loop_ingests _ _ _ _ _ _ Hpre), process_loop_cons,
      Hdec, Hsub.
  - intros Hempty. apply bool_decide_eq_false in Hsub. apply Hsub.
    intros c Hc. destruct (decide (c ∈ columns df)) as [Hin|Hin].
    + by apply elem_of_list_to_set.
    + assert (c ∈ required_columns ∖ list_to_set (columns df)) as Hc'.
      { apply elem_of_difference. by rewrite elem_of_list_to_set. }
      rewrite Hempty in Hc'. by apply not_elem_of_empty in Hc'.
Qed.

(** C7, as amended. When the files before it go through the loop without
    an error and the decoded frame has the required columns and a row with
    a Code in which a str stands as Tot or as TotExp, the other of the two
    not missing, the subtraction of line 30 raises a TypeError and the call
    raises that very exception and reports nothing. The exception is the
    one of the subtraction of the two columns: the call raises it under
    every name of the file, whatever files come after. *)
Theorem text_amount_raises_type_error pre dfs df r :
  Forall2 (ingests read_excel read_csv) pre dfs →
  issubset required_columns (columns df) = true →
  r ∈ rows df →
  isna (cell "Code" r) = false →
  isna (cell "Tot" r) = false →
  isna (cell "TotExp" r) = false →
  is_str (cell "Tot" r) || is_str (cell "TotExp" r) = true →
  ∃ e,
    exn_class e = "TypeError"
    ∧ series_sub (cell "Tot" <$> notna_rows "Code" (rows df))
        (cell "TotExp" <$> notna_rows "Code" (rows df)) = Raise e
    ∧ ∀ file post,
        decode read_excel read_csv file = Return df →
        process_data (figure:=figure) read_excel read_csv (pre ++ file :: post)
        = ([], Raise e).
Proof.
  intros Hpre Hsub Hr Hcode Htot Hexp Hstr.
  assert (r ∈ notna_rows "Code" (rows df)) as [i Hi]%list_elem_of_lookup.
  { by apply list_elem_of_filter. }
  destruct (series_sub_str (cell "Tot" <$> notna_rows "Code" (rows df))
              (cell "TotExp" <$> notna_rows "Code" (rows df))
              i (cell "Tot" r) (cell "TotExp" r)) as (e & He & Hclass);
    try done; try (by rewrite list_lookup_fmap, Hi).
  exists e. split_and!; [done..|]. intros file post Hdec.
  unfold process_data.
  by rewrite (process_loop_ingests _ _ _ _ _ _ Hpre), process_loop_cons,
    Hdec, Hsub, (clean_Raise _ _ Hsub He).
Qed.

(** C8, as amended. A file whose name ends in .xlsx is decoded by the
    spreadsheet reader and every other file, whatever its suffix, by the
    comma-separated reader; the dispatch raises nothing of its own: an
    exception of the decoding is an exception of the reader. *)
Theorem reader_chosen_by_suffix file :
  (∀ stem, name file = stem +:+ ".xlsx" →
           decode read_excel read_csv file = read_excel (content file))
  ∧ (endswith (name file) ".xlsx" = false →
     decode read_excel read_csv file = read_csv (content file))
  ∧ (∀ e, decode read_excel read_csv file = Raise e →
          read_excel (content file) = Raise e ∨ read_csv (content file) = Raise e).
Proof.
  unfold decode. split_and!.
  - intros stem ->. by rewrite endswith_append.
  - by intros ->.
  - intros e. destruct (endswith _ _); auto.
Qed.

End Claims.

Section Script.
Context {figure : Type} {pandas : Pandas}.
Variable read_excel read_csv : string → outcome DataFrame.
Variable totals_figure district_figure : DataFrame → outcome figure.

(** C5, as amended. Called on no file, [process_data] raises ValueError
    at the concatenation of line 34 and returns no table; the script never
    makes that call: with no uploaded file it stops after the uploader,
    without a table and without an error. *)
Theorem no_files_no_table analysis_options selected_lbtype :
  process_data (figure:=figure) read_excel read_csv []
  = ([], Raise (ValueError "No objects to concatenate"))
  ∧ app read_excel read_csv totals_figure district_figure
      [] analysis_options selected_lbtype
    = ([st_title "Multi-File Data Analysis App";
        st_file_uploader "Choose one or more files" ["xlsx"; "csv"]],
       Return None).
Proof. done. Qed.

End Script.

(** ** The claims about the analysis block *)

Lemma run_bind_Return {figure A B} (f : A → run figure B) (m : run figure A) log b :
  run_bind f m = (log, Return b) →
  ∃ log1 a log2, m = (log1, Return a) ∧ f a = (log2, Return b)
                 ∧ log = log1 ++ log2.
Proof.
  destruct m as [log1 [a|e]]; cbn [run_bind]; [|done].
  destruct (f a) as [log2 o] eqn:Hf. intros [= <- ->]. by exists log1, a, log2.
Qed.

(** Inversion of a run that returned, one bind at a time. *)
Ltac run_step H :=
  let H1 := fresh "Hstep" in
  unfold mbind, run_mbind in H;
  apply run_bind_Return in H as (? & ? & ? & H1 & H & ->).

Lemma eval_Return {figure A} (o : outcome A) (log : list (st_call figure)) a :
  eval o = (log, Return a) → o = Return a ∧ log = [].
Proof. unfold eval. by intros [= <- ->]. Qed.

Lemma getitem_Return df c s :
  getitem df c = Return s → c ∈ columns df ∧ s = cell c <$> rows df.
Proof.
  unfold getitem. case_bool_decide; [|done]. by intros [= <-].
Qed.

Lemma setitem_rows df c (g : row → value) :
  rows (setitem df c (g <$> rows df)) = (λ r, <[c := g r]> r) <$> rows df.
Proof.
  unfold setitem; cbn [rows]. by rewrite zip_with_fmap_r, zip_with_diag.
Qed.

Lemma np_where_eq_zero (tot : Series) a b :
  np_where (eq_zero <$> tot) a b = (λ v, if eq_zero v then a else b) <$> tot.
Proof. unfold np_where. by rewrite <-list_fmap_compose. Qed.

Section Analyses.
Context {figure : Type}.
Variable totals_figure district_figure : DataFrame → outcome figure.

Lemma funded_projects_Return data (log : list (st_call figure)) data' :
  funded_projects data = (log, Return data') →
  data' = setitem data "Funding Status"
            ((λ r, if eq_zero (cell "Tot" r)
                   then VStr "Not Funded" else VStr "Funded") <$> rows data).
Proof.
  unfold funded_projects. intros H.
  run_step H. run_step H.
  apply eval_Return in Hstep0 as [[_ ->]%getitem_Return _].
  run_step H. run_step H. run_step H. run_step H.
  injection H as _ <-.
  by rewrite np_where_eq_zero, <-list_fmap_compose.
Qed.

Lemma filter_by_lbtype_Return selected data (log : list (st_call figure)) data' :
  filter_by_lbtype selected data = (log, Return data') → data' = data.
Proof.
  unfold filter_by_lbtype. intros H.
  run_step H. run_step H. run_step H. run_step H. by injection H as _ <-.
Qed.

Lemma compare_totals_Return data (log : list (st_call figure)) data' :
  compare_totals totals_figure data = (log, Return data') → data' = data.
Proof.
  unfold compare_totals. intros H.
  run_step H. run_step H. run_step H. by injection H as _ <-.
Qed.

Lemma district_wise_Return data (log : list (st_call figure)) data' :
  district_wise district_figure data = (log, Return data') → data' = data.
Proof.
  unfold district_wise. intros H.
  run_step H. run_step H. run_step H. by injection H as _ <-.
Qed.

Lemma unused_funds_Return data (log : list (st_call figure)) data' :
  unused_funds data = (log, Return data') → data' = data.
Proof.
  unfold unused_funds. intros H.
  run_step H. run_step H. run_step H. run_step H. run_step H.
  by injection H as _ <-.
Qed.

Lemma when_selected_Return label options analysis data
    (log : list (st_call figure)) data' :
  when_selected label options analysis data = (log, Return data') →
  (data' = data ∧ label ∉ options)
  ∨ (analysis data = (log, Return data') ∧ label ∈ options).
Proof.
  unfold when_selected. case_bool_decide; [by right|].
  intros [= _ <-]. by left.
Qed.

Lemma analyses_Return options selected data (log : list (st_call figure)) data' :
  analyses totals_figure district_figure options selected data
  = (log, Return data') →
  (data' = data ∧ "Find Funded & Non-Funded Projects" ∉ options)
  ∨ (data' = setitem data "Funding Status"
               ((λ r, if eq_zero (cell "Tot" r)
                      then VStr "Not Funded" else VStr "Funded") <$> rows data)
     ∧ "Find Funded & Non-Funded Projects" ∈ options).
Proof.
  unfold analyses. intros H.
  run_step H. run_step H. run_step H. run_step H.
  apply when_selected_Return in Hstep
    as [[-> _]|[->%filter_by_lbtype_Return _]];
  apply when_selected_Return in Hstep1
    as [[-> _]|[->%compare_totals_Return _]];
  apply when_selected_Return in Hstep2
    as [[-> _]|[->%district_wise_Return _]];
  apply when_selected_Return in H
    as [[-> _]|[->%unused_funds_Return _]];
  apply when_selected_Return in Hstep0
    as [[-> ?]|[->%funded_projects_Return ?]]; auto.
Qed.

(** C10. After the funding-status analysis, a row is labelled Not Funded
    exactly when its Tot compares equal to 0, and Funded otherwise; a row
    whose Tot is missing is labelled Funded. *)
Theorem funding_status_labels data (log : list (st_call figure)) data' :
  funded_projects data = (log, Return data') →
  Forall2 (λ r r',
      cell "Tot" r' = cell "Tot" r
      ∧ (cell "Funding Status" r' = VStr "Not Funded" ↔ cell "Tot" r = VNum 0)
      ∧ (cell "Funding Status" r' = VStr "Funded" ↔ cell "Tot" r ≠ VNum 0)
      ∧ (isna (cell "Tot" r) = true → cell "Funding Status" r' = VStr "Funded"))
    (rows data) (rows data').
Proof.
  intros ->%funded_projects_Return. rewrite setitem_rows.
  apply Forall2_fmap_r, Forall_Forall2_diag, Forall_forall. intros r _.
  unfold compose. rewrite !cell_insert_eq, cell_insert_ne by done.
  destruct (cell "Tot" r) as [|z|s]; cbn [eq_zero isna];
    [| case_bool_decide as Hz; [subst z|] |];
    (split_and!; [done|split|split|]); try done; try congruence.
Qed.

(** C9, as amended. One analysis writes to the table that [process_data]
    returned: the funding-status analysis sets the column Funding Status on
    it. When the table had no column of that name the columns are those of
    the table, in their order, followed by Funding Status as the last one;
    when it had one the columns are unchanged. Every other cell, the number
    of rows and their order are as returned, and without that analysis the
    table is untouched. *)
Theorem only_funding_status_is_written options selected data
    (log : list (st_call figure)) data' :
  analyses totals_figure district_figure options selected data
  = (log, Return data') →
  ("Find Funded & Non-Funded Projects" ∉ options → data' = data)
  ∧ ("Find Funded & Non-Funded Projects" ∈ options →
     "Funding Status" ∈ columns data')
  ∧ ("Find Funded & Non-Funded Projects" ∈ options →
     columns data' = if bool_decide ("Funding Status" ∈ columns data)
                     then columns data
                     else columns data ++ ["Funding Status"])
  ∧ (∀ c, c ∈ columns data' ↔ c ∈ columns data ∨
            (c = "Funding Status"
             ∧ "Find Funded & Non-Funded Projects" ∈ options))
  ∧ Forall2 (λ r r', ∀ c, c ≠ "Funding Status" → r' !! c = r !! c)
      (rows data) (rows data').
Proof.
  intros [[-> Hno]|[-> Hyes]]%analyses_Return.
  - split_and!; [done|done|done| |].
    + intros c. split; [by left|]. by intros [?|[_ ?]].
    + by apply Forall_Forall2_diag, Forall_forall.
  - assert (∀ c, c ∈ columns (setitem data "Funding Status"
               ((λ r, if eq_zero (cell "Tot" r)
                      then VStr "Not Funded" else VStr "Funded") <$> rows data))
                 ↔ c ∈ columns data ∨ c = "Funding Status") as Hcols.
    { intros c. unfold setitem; cbn [columns]. case_bool_decide as Hin.
      - split; [by left|]. by intros [?| ->].
      - rewrite elem_of_app, list_elem_of_singleton. done. }
    split_and!; [done| |done| |].
    + intros _. apply Hcols. by right.
    + intros c. rewrite Hcols. tauto.
    + rewrite setitem_rows.
      apply Forall2_fmap_r, Forall_Forall2_diag, Forall_forall.
      intros r _ c Hc. unfold compose. by rewrite lookup_insert_ne.
Qed.

End Analyses.

(** ** Runs on the sample files *)

Section Runs.
Local Existing Instance exact_pandas.

Example process_data_null_tot :
  sample_process_data [file_null_tot] = ([], Return (Some table_null_tot)).
Proof. vm_compute. reflexivity. Qed.

Example ingests_file_a : ingests sample_read_excel sample_read_csv file_a table_a.
Proof. exists frame_a. split_and!; vm_compute; reflexivity. Defined.


Lemma null_codes_dropped_witness :
  sample_process_data [file_a; file_b] = ([], Return (Some table_ab))
  ∧ Forall (λ r, isna (cell "Code" r) = false) (rows table_ab)
  ∧ process_data (figure:=()) (drop_null_codes sample_read_excel)
      (drop_null_codes sample_read_csv) [file_a; file_b]
    = ([], Return (Some table_ab)).
Proof.
  assert (sample_process_data [file_a; file_b] = ([], Return (Some table_ab)))
    as H by (vm_compute; reflexivity).
  destruct (null_codes_dropped sample_read_excel sample_read_csv
              [file_a; file_b] [] table_ab H) as (_ & Hcodes & _ & Hsame).
  by split_and!.
Defined.

Lemma code_present_null_amount_null_difference_witness :
  sample_process_data [file_null_tot] = ([], Return (Some table_null_tot))
  ∧ Forall (λ r,
        isna (cell "Code" r) = false
        ∧ (isna (cell "Tot" r) || isna (cell "TotExp" r) = true →
           cell "Difference" r = VNaN))
      (rows table_null_tot).
Proof.
  assert (sample_process_data [file_null_tot]
          = ([], Return (Some table_null_tot))) as H by (vm_compute; reflexivity).
  split; [exact H|].
  exact (code_present_null_amount_null_difference sample_read_excel
           sample_read_csv [file_null_tot] [] table_null_tot H).
Defined.


Lemma missing_columns_reported_witness :
  sample_process_data ([file_a] ++ file_no_sector :: [file_b])
  = ([st_error "no_sector.csv"
        (required_columns ∖ list_to_set (columns frame_no_sector))],
     Return None)
  ∧ (∀ c, c ∈ required_columns ∖ list_to_set (columns frame_no_sector)
          ↔ c ∈ six_columns ∧ c ∉ columns frame_no_sector)
  ∧ required_columns ∖ list_to_set (columns frame_no_sector) ≠ ∅.
Proof.
  apply (missing_columns_reported sample_read_excel sample_read_csv
           [file_a] [table_a] file_no_sector frame_no_sector [file_b]).
  - constructor; [exact ingests_file_a|constructor].
  - vm_compute; reflexivity.
  - vm_compute; reflexivity.
Defined.

Lemma text_amount_raises_type_error_witness :
  ∃ e,
    exn_class e = "TypeError"
    ∧ series_sub (cell "Tot" <$> notna_rows "Code" (rows frame_text_tot))
        (cell "TotExp" <$> notna_rows "Code" (rows frame_text_tot)) = Raise e
    ∧ ∀ file post,
        decode sample_read_excel sample_read_csv file = Return frame_text_tot →
        sample_process_data ([file_a] ++ file :: post) = ([], Raise e).
Proof.
  apply (text_amount_raises_type_error (figure:=()) sample_read_excel
           sample_read_csv [file_a] [table_a] frame_text_tot
           (record (VNum 4) "X" (VStr "abc") (VNum 80) "S1" "D1")).
  - constructor; [exact ingests_file_a|constructor].
  - vm_compute; reflexivity.
  - left.
  - vm_compute; reflexivity.
  - vm_compute; reflexivity.
  - vm_compute; reflexivity.
  - vm_compute; reflexivity.
Defined.

Lemma funding_status_labels_witness :
  funded_projects table_funding = (funding_page, Return table_funding_status)
  ∧ Forall2 (λ r r',
        cell "Tot" r' = cell "Tot" r
        ∧ (cell "Funding Status" r' = VStr "Not Funded" ↔ cell "Tot" r = VNum 0)
        ∧ (cell "Funding Status" r' = VStr "Funded" ↔ cell "Tot" r ≠ VNum 0)
        ∧ (isna (cell "Tot" r) = true → cell "Funding Status" r' = VStr "Funded"))
      (rows table_funding) (rows table_funding_status).
Proof.
  assert (funded_projects table_funding
          = (funding_page, Return table_funding_status)) as H
    by (vm_compute; reflexivity).
  split; [exact H|].
  exact (funding_status_labels table_funding funding_page table_funding_status H).
Defined.

Lemma only_funding_status_is_written_witness :
  analyses sample_figure sample_figure ["Find Funded & Non-Funded Projects"] []
    table_funding = (funding_page, Return table_funding_status)
  ∧ "Funding Status" ∈ columns table_funding_status
  ∧ columns table_funding_status = columns table_funding ++ ["Funding Status"]
  ∧ Forall2 (λ r r', ∀ c, c ≠ "Funding Status" → r' !! c = r !! c)
      (rows table_funding) (rows table_funding_status).
Proof.
  assert (analyses sample_figure sample_figure
            ["Find Funded & Non-Funded Projects"] [] table_funding
          = (funding_page, Return table_funding_status)) as H
    by (vm_compute; reflexivity).
  destruct (only_funding_status_is_written sample_figure sample_figure
              ["Find Funded & Non-Funded Projects"] [] table_funding
              funding_page table_funding_status H)
    as (_ & Hin & Hcols & _ & Hrows).
  split_and!; [exact H| | |exact Hrows].
  - apply Hin. by left.
  - rewrite Hcols by left. reflexivity.
Defined.

(** *** Where the code departs from the specification *)


(** C4. A row with a Code and a missing Tot stays in the table, and its
    Difference is missing. *)
Lemma null_tot_gives_null_difference :
  sample_process_data [file_null_tot] = ([], Return (Some table_null_tot))
  ∧ cell "Code" <$> rows table_null_tot = [VNum 5]
  ∧ cell "Tot" <$> rows table_null_tot = [VNaN]
  ∧ cell "Difference" <$> rows table_null_tot = [VNaN]
  ∧ ¬ Forall (λ r, isna (cell "Difference" r) = false) (rows table_null_tot).
Proof.
  split_and!; [vm_compute; reflexivity..|].
  intros H. apply Forall_cons_1 in H as [H _]. vm_compute in H. done.
Qed.

(** C5. On no file the call raises; it returns no table, empty or not. *)
Lemma no_files_raises :
  sample_process_data [] = ([], Raise (ValueError "No objects to concatenate")).
Proof. reflexivity. Qed.

(** C7. The TypeError raised for the text in Tot of [budget.csv] is the
    exception of the subtraction of the two bare columns of values, and it
    is raised again, the same, when the file comes under another name: it
    tells neither the file nor the column. And a text as Tot does not make
    the call fail wherever it stands: in the workbook [ledger.xlsx] one
    text is in a row without a Code and the other faces a missing TotExp,
    and the call returns a table. *)
Lemma type_error_is_that_of_the_subtraction :
  (∃ e, series_sub [VStr "abc"] [VNum 80] = Raise e
        ∧ sample_process_data [file_text_tot] = ([], Raise e)
        ∧ sample_process_data [file_text_tot_renamed] = ([], Raise e))
  ∧ name file_text_tot ≠ name file_text_tot_renamed
  ∧ cell "Tot" <$> rows frame_ledger = [VStr "n/a"; VStr "pending"; VNum 100]
  ∧ process_data (figure:=()) sample_read_excel_more sample_read_csv [file_ledger]
    = ([], Return (Some table_ledger)).
Proof.
  split_and!; [|done|vm_compute; reflexivity..].
  eexists. split_and!; vm_compute; reflexivity.
Qed.

(** C8. A file named [budget.txt] has neither of the two suffixes; it is
    read as comma-separated text and the call returns its table. *)
Lemma other_suffix_is_read_as_csv :
  endswith (name file_txt) ".xlsx" = false
  ∧ endswith (name file_txt) ".csv" = false
  ∧ sample_process_data [file_txt] = ([], Return (Some table_a)).
Proof. split_and!; vm_compute; reflexivity. Qed.

(** C9. With the funding-status analysis chosen, the table returned by
    [process_data] ends the script with one more column. *)
Lemma funding_status_added_to_returned_table :
  sample_process_data [file_a; file_b] = ([], Return (Some table_ab))
  ∧ (sample_app [file_a; file_b] ["Find Funded & Non-Funded Projects"] []).2
    = Return (Some table_ab_status)
  ∧ columns table_ab = six_columns ++ ["Difference"]
  ∧ columns table_ab_status = six_columns ++ ["Difference"; "Funding Status"]
  ∧ table_ab_status ≠ table_ab.
Proof.
  split_and!; [vm_compute; reflexivity..|].
  intros H. apply (f_equal columns) in H. vm_compute in H. discriminate H.
Qed.

End Runs.

(** ** More of [process_data]: columns, outcomes, failures *)

Lemma elem_of_union_columns_inv dfs c :
  c ∈ union_columns dfs → ∃ df, df ∈ dfs ∧ c ∈ columns df.
Proof.
  unfold union_columns.
  assert (∀ acc, c ∈ foldl (λ acc df, acc ++ filter (λ c, c ∉ acc) (columns df))
                       acc dfs →
                 c ∈ acc ∨ ∃ df, df ∈ dfs ∧ c ∈ columns df) as Hgen.
  { induction dfs as [|df dfs IH]; intros acc Hc; [by left|].
    cbn [foldl] in Hc. apply IH in Hc as [Hc|(df' & Hdf' & Hc)].
    - apply elem_of_app in Hc as [Hc|Hc]; [by left|right].
      apply list_elem_of_filter in Hc as [_ Hc]. exists df. split; [left|done].
    - right. exists df'. split; [by right|done]. }
  intros Hc. destruct (Hgen [] Hc) as [Hnil|?]; [|done].
  by apply elem_of_nil in Hnil.
Qed.

Lemma union_columns_prefix dfs acc :
  ∃ rest, foldl (λ acc df, acc ++ filter (λ c, c ∉ acc) (columns df)) acc dfs
          = acc ++ rest.
Proof.
  revert acc. induction dfs as [|df dfs IH]; intros acc.
  - exists []. by rewrite app_nil_r.
  - cbn [foldl]. destruct (IH (acc ++ filter (λ c, c ∉ acc) (columns df)))
      as [rest ->].
    eexists. by rewrite <-app_assoc.
Qed.

Lemma union_columns_NoDup dfs :
  Forall (λ df, NoDup (columns df)) dfs → NoDup (union_columns dfs).
Proof.
  unfold union_columns.
  assert (∀ acc, NoDup acc → Forall (λ df, NoDup (columns df)) dfs →
                 NoDup (foldl (λ acc df, acc ++ filter (λ c, c ∉ acc) (columns df))
                          acc dfs)) as Hgen.
  { induction dfs as [|df dfs IH]; intros acc Hacc Hdfs; [done|].
    apply Forall_cons_1 in Hdfs as [Hdf Hdfs]. cbn [foldl].
    apply IH; [|done]. apply NoDup_app. split_and!; [done| |by apply NoDup_filter].
    intros c Hc [Hnot _]%list_elem_of_filter. done. }
  apply Hgen. constructor.
Qed.

Lemma filter_not_in_nil (l : list string) : filter (λ c, c ∉ []) l = l.
Proof.
  induction l as [|c l IH]; [done|].
  rewrite filter_cons, decide_True, IH; [done|]. apply not_elem_of_nil.
Qed.

Lemma clean_columns {pandas : Pandas} df df' :
  clean df = Return df' →
  columns df' = if bool_decide ("Difference" ∈ columns df) then columns df
                else columns df ++ ["Difference"].
Proof.
  unfold clean, dropna, getitem. intros H.
  destruct (decide ("Code" ∈ columns df)) as [HCode|HCode];
    [rewrite bool_decide_eq_true_2 in H by done
    |rewrite bool_decide_eq_false_2 in H by done; discriminate H].
  unfold mbind, mret, outcome_mbind, outcome_ret in H.
  cbn [outcome_bind columns rows] in H.
  destruct (decide ("Tot" ∈ columns df)) as [HTot|HTot];
    [rewrite (bool_decide_eq_true_2 _ HTot) in H
    |rewrite (bool_decide_eq_false_2 _ HTot) in H; discriminate H].
  destruct (decide ("TotExp" ∈ columns df)) as [HExp|HExp];
    [rewrite (bool_decide_eq_true_2 _ HExp) in H
    |rewrite (bool_decide_eq_false_2 _ HExp) in H; discriminate H].
  cbn [outcome_bind] in H. bind_cases H. by injection H as <-.
Qed.

Lemma clean_elem_of_columns {pandas : Pandas} df df' c :
  clean df = Return df' → c ∈ columns df' ↔ c ∈ columns df ∨ c = "Difference".
Proof.
  intros ->%clean_columns. case_bool_decide as Hin.
  - split; [by left|]. by intros [?| ->].
  - by rewrite elem_of_app, list_elem_of_singleton.
Qed.

Lemma clean_NoDup {pandas : Pandas} df df' :
  clean df = Return df' → NoDup (columns df) → NoDup (columns df').
Proof.
  intros ->%clean_columns Hnd. case_bool_decide as Hin; [done|].
  apply NoDup_app. split_and!; [done| |apply NoDup_singleton].
  intros c Hc ->%list_elem_of_singleton. done.
Qed.

Lemma pd_concat_columns dfs table :
  pd_concat dfs = Return table → dfs ≠ [] ∧ columns table = union_columns dfs.
Proof.
  destruct dfs as [|df dfs]; [done|]. cbn [pd_concat]. by intros [= <-].
Qed.

Section Outcomes.
Context {figure : Type} {pandas : Pandas}.
Variable read_excel read_csv : string → outcome DataFrame.

(** X1. The columns of a returned table are the six required columns,
    Difference, and every other column of an uploaded file: a column is in
    the table exactly when it is Difference or a column of some decoded
    file. When no decoded file repeats a column name, neither does the
    table. *)
Theorem table_columns files (log : list (st_call figure)) table :
  process_data read_excel read_csv files = (log, Return (Some table)) →
  Forall (λ c, c ∈ columns table) (six_columns ++ ["Difference"])
  ∧ (∀ c, c ∈ columns table ↔
          c = "Difference"
          ∨ ∃ file df, file ∈ files
                       ∧ decode read_excel read_csv file = Return df
                       ∧ c ∈ columns df)
  ∧ ((∀ file df, file ∈ files → decode read_excel read_csv file = Return df →
                 NoDup (columns df)) →
     NoDup (columns table)).
Proof.
  intros (_ & dfs & Hing & Hcat)%process_data_Some.
  apply pd_concat_columns in Hcat as [Hne Hcols].
  assert (∀ c, c ∈ columns table ↔
            c = "Difference"
            ∨ ∃ file df, file ∈ files
                         ∧ decode read_excel read_csv file = Return df
                         ∧ c ∈ columns df) as Hiff.
  { intros c. rewrite Hcols. split.
    - intros (df' & Hdf' & Hc)%elem_of_union_columns_inv.
      apply list_elem_of_lookup in Hdf' as [i Hi].
      destruct (Forall2_lookup_r _ _ _ _ _ Hing Hi)
        as (file & Hfile & df & Hdec & _ & Hclean).
      apply (clean_elem_of_columns _ _ c Hclean) in Hc as [Hc| ->]; [right|by left].
      exists file, df. split_and!; [|done|done].
      by eapply list_elem_of_lookup_2.
    - intros Hc.
      assert (∃ file df df', file ∈ files ∧ df' ∈ dfs
                ∧ decode read_excel read_csv file = Return df
                ∧ clean df = Return df'
                ∧ (c = "Difference" ∨ c ∈ columns df))
        as (file & df & df' & _ & Hdf' & _ & Hclean & Hc').
      { destruct Hc as [->|(file & df & Hfile & Hdec & Hc)].
        - destruct Hing as [|file df' files dfs (df & Hdec & _ & Hclean) _]; [done|].
          exists file, df, df'. split_and!; [left|left|done|done|by left].
        - apply list_elem_of_lookup in Hfile as [i Hi].
          destruct (Forall2_lookup_l _ _ _ _ _ Hing Hi)
            as (df' & Hdf' & df0 & Hdec0 & _ & Hclean).
          assert (df0 = df) as -> by congruence.
          exists file, df, df'. split_and!; try done.
          + by eapply list_elem_of_lookup_2.
          + by eapply list_elem_of_lookup_2.
          + by right. }
      apply (elem_of_union_columns dfs df'); [done|].
      apply (clean_elem_of_columns _ _ c Hclean). tauto. }
  split_and!; [|done|].
  - apply Forall_forall. intros c Hc. apply Hiff.
    apply elem_of_app in Hc as [Hc| ->%list_elem_of_singleton]; [right|by left].
    destruct Hing as [|file df' files dfs (df & Hdec & Hsub & _) _]; [done|].
    exists file, df. split_and!; [left|done|].
    by apply (issubset_required _ _ Hsub).
  - intros Hnd. rewrite Hcols. apply union_columns_NoDup.
    apply Forall_forall. intros df' Hdf'.
    apply list_elem_of_lookup in Hdf' as [i Hi].
    destruct (Forall2_lookup_r _ _ _ _ _ Hing Hi)
      as (file & Hfile & df & Hdec & _ & Hclean).
    apply (clean_NoDup _ _ Hclean), (Hnd file); [|done].
    by eapply list_elem_of_lookup_2.
Qed.

(** X2. The columns of the first file come first, in their order, with
    Difference after them when the file has no column of that name; with
    one file these are all the columns of the table. *)
Theorem first_file_columns_first file files df (log : list (st_call figure)) table :
  process_data read_excel read_csv (file :: files) = (log, Return (Some table)) →
  decode read_excel read_csv file = Return df →
  ∃ rest,
    columns table
    = (if bool_decide ("Difference" ∈ columns df) then columns df
       else columns df ++ ["Difference"]) ++ rest
    ∧ (files = [] → rest = []).
Proof.
  intros (_ & dfs & Hing & Hcat)%process_data_Some Hdec.
  apply pd_concat_columns in Hcat as [_ ->].
  apply Forall2_cons_inv_l in Hing
    as (df' & dfs' & (df0 & Hdec0 & _ & Hclean) & Hing & ->).
  assert (df0 = df) as -> by congruence.
  rewrite <-(clean_columns _ _ Hclean).
  unfold union_columns. cbn [foldl app]. rewrite filter_not_in_nil.
  destruct (union_columns_prefix dfs' (columns df')) as [rest Hrest].
  exists rest. split; [done|]. intros ->.
  apply Forall2_nil_inv_l in Hing as ->. cbn [foldl] in Hrest.
  rewrite <-(app_nil_r (columns df')) in Hrest at 1.
  by apply app_inv_head in Hrest.
Qed.

End Outcomes.

Section Failures.
Context {figure : Type} {pandas : Pandas}.
Variable read_excel read_csv : string → outcome DataFrame.

Lemma process_loop_outcome files all_data (log : list (st_call figure)) o :
  process_loop read_excel read_csv files all_data = (log, o) →
  (log = [] ∧ ((∃ table, o = Return (Some table)) ∨ ∃ e, o = Raise e))
  ∨ (o = Return None
     ∧ ∃ file df, file ∈ files
                  ∧ decode read_excel read_csv file = Return df
                  ∧ issubset required_columns (columns df) = false
                  ∧ log = [st_error (name file)
                             (required_columns ∖ list_to_set (columns df))]).
Proof.
  revert all_data. induction files as [|file files IH]; intros all_data H.
  - rewrite process_loop_nil in H. left.
    destruct (pd_concat all_data); injection H as <- <-; eauto.
  - rewrite process_loop_cons in H.
    destruct (decode read_excel read_csv file) as [df|e] eqn:Hdec.
    2:{ injection H as <- <-. left. eauto. }
    destruct (issubset required_columns (columns df)) eqn:Hsub.
    2:{ injection H as <- <-. right. split; [done|].
        exists file, df. split_and!; [left|done..]. }
    destruct (clean df) as [df'|e].
    2:{ injection H as <- <-. left. eauto. }
    apply IH in H as [?|(-> & file' & df'' & ? & ? & ? & ->)]; [by left|right].
    split; [done|]. exists file', df''. split_and!; [by right|done..].
Qed.

(** X3. A call ends in one of three ways. It returns a table, or it raises,
    and then it has reported nothing; or it returns None, and then it has
    made exactly one report, about a file of the call whose decoded columns
    lack a required one. *)
Theorem process_data_outcome files (log : list (st_call figure)) o :
  process_data read_excel read_csv files = (log, o) →
  (log = [] ∧ ((∃ table, o = Return (Some table)) ∨ ∃ e, o = Raise e))
  ∨ (o = Return None
     ∧ ∃ file df, file ∈ files
                  ∧ decode read_excel read_csv file = Return df
                  ∧ issubset required_columns (columns df) = false
                  ∧ log = [st_error (name file)
                             (required_columns ∖ list_to_set (columns df))]).
Proof. apply process_loop_outcome. Qed.

(** X4. An exception of a reader is not caught: when the files before [file]
    go through the loop and the reader raises on [file], the call raises
    that exception, reports nothing and returns no table, whatever the
    files after it. *)
Theorem reader_exception_propagates pre dfs file post e :
  Forall2 (ingests read_excel read_csv) pre dfs →
  decode read_excel read_csv file = Raise e →
  process_data (figure:=figure) read_excel read_csv (pre ++ file :: post)
  = ([], Raise e).
Proof.
  intros Hpre Hdec. unfold process_data.
  by rewrite (process_loop_ingests _ _ _ _ _ _ Hpre), process_loop_cons, Hdec.
Qed.

Lemma process_loop_renamed files files' all_data :
  Forall2 (λ f f', content f = content f'
                   ∧ endswith (name f) ".xlsx" = endswith (name f') ".xlsx")
    files files' →
  (process_loop (figure:=figure) read_excel read_csv files all_data).2
  = (process_loop (figure:=figure) read_excel read_csv files' all_data).2.
Proof.
  intros H. revert all_data.
  induction H as [|f f' files files' [Hcontent Hsuffix] _ IH]; intros all_data;
    [done|].
  rewrite !process_loop_cons. unfold decode. rewrite Hcontent, Hsuffix.
  destruct (if endswith (name f') ".xlsx" then read_excel (content f')
            else read_csv (content f')) as [df|e]; [|done].
  destruct (issubset required_columns (columns df)); [|done].
  destruct (clean df); [apply IH|done].
Qed.

(** X5. The name of a file counts for its being a .xlsx name or not, and for
    the error report: files of the same bytes whose names agree on ending
    in .xlsx give the same table, the same None or the same exception. *)
Theorem names_matter_by_suffix_only files files' :
  Forall2 (λ f f', content f = content f'
                   ∧ endswith (name f) ".xlsx" = endswith (name f') ".xlsx")
    files files' →
  (process_data (figure:=figure) read_excel read_csv files).2
  = (process_data (figure:=figure) read_excel read_csv files').2.
Proof. apply process_loop_renamed. Qed.

End Failures.

(** ** More of [process_data]: the shape of the table *)

Lemma rectangular_lookup df (r : row) c :
  rectangular df → r ∈ rows df → is_Some (r !! c) ↔ c ∈ columns df.
Proof.
  intros Hrect Hr. unfold rectangular in Hrect. rewrite Forall_forall in Hrect.
  by rewrite <-elem_of_dom, (Hrect r Hr), elem_of_list_to_set.
Qed.

Lemma dom_reindex cols (r : row) : dom (reindex cols r) = list_to_set cols.
Proof.
  apply set_eq. intros c.
  rewrite elem_of_dom, lookup_reindex, elem_of_list_to_set.
  case_bool_decide; [by split; eauto|].
  split; [by intros []|done].
Qed.




Section Shape.
Context {figure : Type} {pandas : Pandas}.
Variable read_excel read_csv : string → outcome DataFrame.


(** X7. When the decoded files are rectangular, a row has a missing value
    under every column of the table that its own file does not have
    (Difference apart): the columns that only other files bring are
    filled with NaN. *)
Theorem foreign_columns_filled_with_nan files (log : list (st_call figure)) table :
  process_data read_excel read_csv files = (log, Return (Some table)) →
  Forall (λ file, ∀ df, decode read_excel read_csv file = Return df →
                        rectangular df) files →
  ∃ dfs blocks,
    Forall2 (λ file df, decode read_excel read_csv file = Return df) files dfs
    ∧ rows table = mjoin blocks
    ∧ Forall2 (λ df block,
          length block = length (notna_rows "Code" (rows df))
          ∧ Forall (λ out : row,
                ∀ c, c ∈ columns table → c ∉ columns df → c ≠ "Difference" →
                     out !! c = Some VNaN)
              block)
        dfs blocks.
Proof.
  intros (_ & dfs & blocks & Hdfs & Hrows & Hblocks)%table_blocks Hrect.
  exists dfs, blocks. split_and!; [|done|].
  { eapply Forall2_impl; [exact Hdfs|]. by intros file df [? _]. }
  assert (Forall rectangular dfs) as Hrects.
  { apply Forall_forall. intros df Hdf.
    apply list_elem_of_lookup in Hdf as [i Hi].
    destruct (Forall2_lookup_r _ _ _ _ _ Hdfs Hi) as (file & Hfile & Hdec & _).
    rewrite Forall_forall in Hrect. apply (Hrect file); [|done].
    by eapply list_elem_of_lookup_2. }
  apply Forall2_same_length_lookup. split; [by eapply Forall2_length|].
  intros i df block Hdf Hblock.
  destruct (Forall2_lookup_lr _ _ _ _ _ _ Hblocks Hdf Hblock) as (_ & _ & Hrs).
  split; [symmetry; by eapply Forall2_length|].
  apply Forall_forall. intros out Hout c Hc Hnot Hne.
  apply list_elem_of_lookup in Hout as [j Hj].
  destruct (Forall2_lookup_r _ _ _ _ _ Hrs Hj) as (r & Hr & d & ->).
  apply list_elem_of_lookup_2, list_elem_of_filter in Hr as [_ Hr].
  rewrite lookup_reindex, bool_decide_eq_true_2 by done. f_equal.
  unfold cell. rewrite lookup_insert_ne by done.
  destruct (r !! c) eqn:Hrc; [|done]. destruct Hnot.
  rewrite Forall_forall in Hrects.
  apply (rectangular_lookup df r c); [|done|by rewrite Hrc].
  apply Hrects. by eapply list_elem_of_lookup_2.
Qed.


End Shape.

(** ** More of the analysis block *)

Lemma getitem_elem_of df c :
  c ∈ columns df → getitem df c = Return (cell c <$> rows df).
Proof. intros Hc. unfold getitem. by rewrite bool_decide_eq_true_2. Qed.

Lemma getitem_not_elem_of df c :
  c ∉ columns df → getitem df c = Raise (KeyError c).
Proof. intros Hc. unfold getitem. by rewrite bool_decide_eq_false_2. Qed.

Lemma boolean_index_fmap df (p : row → bool) :
  boolean_index df (p <$> rows df)
  = {| columns := columns df; rows := filter (λ r, p r = true) (rows df) |}.
Proof.
  unfold boolean_index. f_equal.
  induction (rows df) as [|r rs IH]; [done|].
  rewrite fmap_cons. cbn [zip zip_with]. rewrite bind_cons, IH, filter_cons.
  cbn [fst snd]. destruct (p r); [by rewrite decide_True|by rewrite decide_False].
Qed.

Lemma eq_zero_true v : eq_zero v = true ↔ v = VNum 0.
Proof.
  destruct v as [|z|s]; cbn; [done| |done].
  rewrite bool_decide_eq_true. split; [by intros ->|by intros [= ->]].
Qed.

Lemma funds_unused_true r :
  funds_unused r = true
  ↔ cell "TotExp" r = VNum 0 ∧ ∃ z, cell "Tot" r = VNum z ∧ 0 < z.
Proof.
  unfold funds_unused. rewrite andb_true_iff, eq_zero_true.
  destruct (cell "Tot" r) as [|z|s].
  - split; [by intros [_ ?]|by intros [_ (z & ? & _)]].
  - rewrite bool_decide_eq_true. split.
    + intros [? ?]. eauto.
    + intros [? (z' & [= <-] & ?)]. done.
  - split; [by intros [_ ?]|by intros [_ (z & ? & _)]].
Qed.

Lemma series_gt_zero_Return {A} (f : A → value) (l : list A) :
  Forall (λ a, is_str (f a) = false) l →
  series_gt_zero (f <$> l)
  = Return ((λ a, match f a with
                  | VNum z => bool_decide (0 < z)
                  | _ => false
                  end) <$> l).
Proof.
  induction 1 as [|a l Ha _ IH]; [done|].
  rewrite !fmap_cons. cbn [series_gt_zero]. rewrite IH.
  by destruct (f a).
Qed.

Lemma series_gt_zero_Raise {A} (f : A → value) (l : list A) a :
  a ∈ l → is_str (f a) = true →
  series_gt_zero (f <$> l)
  = Raise (TypeError "'>' not supported between instances of 'str' and 'int'").
Proof.
  induction l as [|b l IH]; intros Hin Hstr; [by apply elem_of_nil in Hin|].
  rewrite fmap_cons. cbn [series_gt_zero].
  destruct (f b) as [|z|s] eqn:Hb; cbn; [| |done].
  - apply elem_of_cons in Hin as [->|Hin]; [by rewrite Hb in Hstr|].
    by rewrite IH.
  - apply elem_of_cons in Hin as [->|Hin]; [by rewrite Hb in Hstr|].
    by rewrite IH.
Qed.

Lemma unique_spec (s : Series) :
  NoDup (unique s) ∧ ∀ v, v ∈ unique s ↔ v ∈ s.
Proof.
  unfold unique.
  assert (∀ acc, NoDup acc →
            NoDup (foldl (λ acc v, if bool_decide (v ∈ acc) then acc
                                   else acc ++ [v]) acc s)
            ∧ ∀ v, v ∈ foldl (λ acc v, if bool_decide (v ∈ acc) then acc
                                       else acc ++ [v]) acc s
                   ↔ v ∈ acc ∨ v ∈ s) as Hgen.
  { induction s as [|x s IH]; intros acc Hacc; cbn [foldl].
    - split; [done|]. intros v. rewrite elem_of_nil. tauto.
    - case_bool_decide as Hx.
      + destruct (IH acc Hacc) as [Hnd Hin]. split; [done|].
        intros v. rewrite Hin, elem_of_cons. split; [tauto|].
        intros [?|[->|?]]; auto.
      + destruct (IH (acc ++ [x])) as [Hnd Hin].
        { apply NoDup_app. split_and!; [done| |apply NoDup_singleton].
          intros v Hv ->%list_elem_of_singleton. done. }
        split; [done|]. intros v.
        rewrite Hin, elem_of_app, list_elem_of_singleton, elem_of_cons. tauto. }
  destruct (Hgen [] (NoDup_nil_2)) as [Hnd Hin]. split; [done|].
  intros v. rewrite Hin, elem_of_nil. tauto.
Qed.

Lemma value_counts_positive (s : Series) v n :
  value_counts s !! v = Some n → (0 < n)%nat.
Proof.
  revert n. induction s as [|x s IH]; intros n; cbn [value_counts foldr].
  - by rewrite lookup_empty.
  - fold (value_counts s). destruct (isna x); [apply IH|].
    destruct (decide (x = v)) as [->|Hne].
    + rewrite lookup_insert_eq. intros [= <-]. lia.
    + rewrite lookup_insert_ne by done. apply IH.
Qed.

Lemma value_counts_cons x (s : Series) :
  isna x = false →
  value_counts (x :: s)
  = <[x := S (default 0%nat (value_counts s !! x))]> (value_counts s).
Proof. intros Hx. unfold value_counts. cbn [foldr]. by rewrite Hx. Qed.

Lemma funding_label_cases r :
  (cell "Tot" r = VNum 0 ∧ funding_label r = VStr "Not Funded")
  ∨ (cell "Tot" r ≠ VNum 0 ∧ funding_label r = VStr "Funded").
Proof.
  unfold funding_label. destruct (eq_zero (cell "Tot" r)) eqn:Hz.
  - left. by apply eq_zero_true in Hz.
  - right. split; [|done]. intros Heq%eq_zero_true. congruence.
Qed.

Lemma funding_counts (rs : list row) :
  default 0%nat (value_counts (funding_label <$> rs) !! VStr "Not Funded")
  = length (filter (λ r, cell "Tot" r = VNum 0) rs)
  ∧ default 0%nat (value_counts (funding_label <$> rs) !! VStr "Funded")
    = length (filter (λ r, cell "Tot" r ≠ VNum 0) rs)
  ∧ ∀ v, v ≠ VStr "Not Funded" → v ≠ VStr "Funded" →
         value_counts (funding_label <$> rs) !! v = None.
Proof.
  induction rs as [|r rs (IH1 & IH2 & IH3)]; [done|].
  rewrite fmap_cons, !filter_cons.
  destruct (funding_label_cases r) as [[Hz Hl]|[Hz Hl]];
    rewrite value_counts_cons by (by rewrite Hl); rewrite Hl.
  - rewrite decide_True, decide_False by (done || by intros []).
    rewrite lookup_insert_eq, lookup_insert_ne by done. cbn [default length].
    split_and!; [by rewrite IH1|done|].
    intros v Hv1 Hv2. rewrite lookup_insert_ne by done. by apply IH3.
  - rewrite decide_False, decide_True by done.
    rewrite lookup_insert_eq, lookup_insert_ne by done. cbn [default length].
    split_and!; [done|by rewrite IH2|].
    intros v Hv1 Hv2. rewrite lookup_insert_ne by done. by apply IH3.
Qed.

(** Forward evaluation of a run, one bind at a time. *)
Lemma run_call_bind {figure B} (c : st_call figure) (f : () → run figure B) log o :
  f () = (log, o) → (call c ≫= f) = (c :: log, o).
Proof. unfold mbind, run_mbind, call. cbn [run_bind]. by intros ->. Qed.

Lemma run_eval_bind {figure A B} (a : A) (f : A → run figure B) r :
  f a = r → (eval (Return a) ≫= f) = r.
Proof.
  unfold mbind, run_mbind, eval. cbn [run_bind]. intros <-. by destruct (f a).
Qed.

Lemma run_eval_Return {figure A B} (a : A) (f : A → run figure B) :
  (eval (Return a) ≫= f) = f a.
Proof. by apply run_eval_bind. Qed.

Lemma run_eval_raise {figure A B} e (f : A → run figure B) :
  (eval (Raise e) ≫= f) = ([], Raise e).
Proof. done. Qed.

Lemma select_elem_of df cols :
  Forall (λ c, c ∈ columns df) cols →
  select df cols = Return {| columns := cols; rows := reindex cols <$> rows df |}.
Proof.
  intros Hcols. unfold select.
  assert (filter (λ c, c ∉ columns df) cols = []) as ->; [|done].
  induction Hcols as [|c cols Hc _ IH]; [done|].
  by rewrite filter_cons, decide_False by (by intros []).
Qed.

Lemma setitem_elem_of_columns df c s c' :
  c' ∈ columns (setitem df c s) ↔ c' ∈ columns df ∨ c' = c.
Proof.
  unfold setitem; cbn [columns]. case_bool_decide as Hin.
  - split; [by left|]. by intros [?| ->].
  - by rewrite elem_of_app, list_elem_of_singleton.
Qed.

Lemma getitem_setitem df c (g : row → value) :
  getitem (setitem df c (g <$> rows df)) c = Return (g <$> rows df).
Proof.
  rewrite getitem_elem_of by (apply setitem_elem_of_columns; by right).
  rewrite setitem_rows, <-list_fmap_compose. f_equal.
  apply list_fmap_ext. intros i r _. cbn. apply cell_insert_eq.
Qed.

Section Views.
Context {figure : Type}.

Lemma unused_funds_eq data :
  "TotExp" ∈ columns data → "Tot" ∈ columns data →
  Forall (λ r, is_str (cell "Tot" r) = false) (rows data) →
  unused_funds (figure:=figure) data
  = ([st_subheader "Projects Where Funds Were Not Used";
      st_dataframe {| columns := columns data;
                      rows := filter (λ r, funds_unused r = true) (rows data) |}],
     Return data).
Proof.
  intros Hexp Htot Hnum.
  unfold unused_funds. apply run_call_bind.
  rewrite !getitem_elem_of by done. do 2 apply run_eval_bind.
  rewrite series_gt_zero_Return by done. apply run_eval_bind.
  rewrite <-list_fmap_compose, zip_with_fmap_l, zip_with_fmap_r, zip_with_diag.
  change (boolean_index data _)
    with (boolean_index data (funds_unused <$> rows data)).
  by rewrite (boolean_index_fmap data funds_unused).
Qed.

Lemma filter_by_lbtype_eq selected_lbtype data :
  "LBType" ∈ columns data →
  filter_by_lbtype (figure:=figure) selected_lbtype data
  = ([st_subheader "Filter Data by LBType";
      st_multiselect "Select LBType(s)" (unique (cell "LBType" <$> rows data));
      st_dataframe
        (match selected_lbtype with
         | [] => data
         | _ :: _ =>
             {| columns := columns data;
                rows := filter (λ r, cell "LBType" r ∈ selected_lbtype)
                          (rows data) |}
         end)],
     Return data).
Proof.
  intros Hlb. unfold filter_by_lbtype. apply run_call_bind.
  rewrite getitem_elem_of by done. apply run_eval_bind. cbn zeta.
  apply run_call_bind.
  destruct selected_lbtype as [|v vs]; [done|].
  rewrite run_eval_Return. unfold isin. rewrite <-list_fmap_compose.
  rewrite boolean_index_fmap.
  rewrite (list_filter_iff _ (λ r, cell "LBType" r ∈ v :: vs)); [done|].
  intros r. unfold compose. by rewrite bool_decide_eq_true.
Qed.

Lemma funded_projects_eq data :
  Forall (λ c, c ∈ columns data) ["Code"; "LBType"; "Sector"; "District"; "Tot"] →
  funded_projects (figure:=figure) data
  = ([st_subheader "Funded vs Non-Funded Projects";
      st_bar_chart (value_counts (funding_label <$> rows data));
      st_dataframe
        {| columns := ["Code"; "LBType"; "Sector"; "District"; "Tot";
                       "Funding Status"];
           rows := reindex ["Code"; "LBType"; "Sector"; "District"; "Tot";
                            "Funding Status"]
                   <$> rows (setitem data "Funding Status"
                               (funding_label <$> rows data)) |}],
     Return (setitem data "Funding Status" (funding_label <$> rows data))).
Proof.
  intros Hcols. rewrite Forall_forall in Hcols.
  unfold funded_projects. apply run_call_bind.
  rewrite getitem_elem_of by (apply Hcols; rewrite !elem_of_cons; tauto).
  apply run_eval_bind. cbn zeta.
  rewrite np_where_eq_zero, <-list_fmap_compose.
  change ((λ v, if eq_zero v then VStr "Not Funded" else VStr "Funded")
          ∘ cell "Tot") with funding_label.
  rewrite getitem_setitem. apply run_eval_bind. apply run_call_bind.
  rewrite select_elem_of.
  - apply run_eval_bind. by apply run_call_bind.
  - apply Forall_forall. intros c Hc. apply setitem_elem_of_columns.
    rewrite !elem_of_cons, elem_of_nil in Hc.
    destruct (decide (c = "Funding Status")); [by right|left].
    apply Hcols. rewrite !elem_of_cons. tauto.
Qed.

(** X9. The unused-funds analysis, on a table with the columns TotExp and Tot
    and no text as Tot, shows the rows with [TotExp == 0] and [Tot > 0], in
    their order and with all their columns, and leaves the table as it is.
    A row with a zero or missing Tot does not qualify. *)
Theorem unused_funds_view data :
  "TotExp" ∈ columns data → "Tot" ∈ columns data →
  Forall (λ r, is_str (cell "Tot" r) = false) (rows data) →
  unused_funds (figure:=figure) data
  = ([st_subheader "Projects Where Funds Were Not Used";
      st_dataframe {| columns := columns data;
                      rows := filter (λ r, funds_unused r = true) (rows data) |}],
     Return data)
  ∧ ∀ r, funds_unused r = true
         ↔ cell "TotExp" r = VNum 0 ∧ ∃ z, cell "Tot" r = VNum z ∧ 0 < z.
Proof.
  intros Hexp Htot Hnum. split; [by apply unused_funds_eq|].
  apply funds_unused_true.
Qed.

(** X10. A text as Tot in any row makes the unused-funds analysis raise
    TypeError at the comparison [Tot > 0], after its heading and before
    any table is shown. *)
Theorem unused_funds_text_tot data r :
  "TotExp" ∈ columns data → "Tot" ∈ columns data →
  r ∈ rows data → is_str (cell "Tot" r) = true →
  unused_funds (figure:=figure) data
  = ([st_subheader "Projects Where Funds Were Not Used"],
     Raise (TypeError "'>' not supported between instances of 'str' and 'int'")).
Proof.
  intros Hexp Htot Hr Hstr.
  unfold unused_funds. apply run_call_bind.
  rewrite !getitem_elem_of by done. do 2 apply run_eval_bind.
  by rewrite (series_gt_zero_Raise _ _ r).
Qed.

(** X11. The LBType filter, on a table with the column LBType: with no LBType
    chosen it shows the whole table; otherwise it shows the rows whose
    LBType is one of the chosen ones, in their order and with all their
    columns. It leaves the table as it is. *)
Theorem lbtype_filter_view selected_lbtype data :
  "LBType" ∈ columns data →
  filter_by_lbtype (figure:=figure) selected_lbtype data
  = ([st_subheader "Filter Data by LBType";
      st_multiselect "Select LBType(s)" (unique (cell "LBType" <$> rows data));
      st_dataframe
        (match selected_lbtype with
         | [] => data
         | _ :: _ =>
             {| columns := columns data;
                rows := filter (λ r, cell "LBType" r ∈ selected_lbtype)
                          (rows data) |}
         end)],
     Return data).
Proof. apply filter_by_lbtype_eq. Qed.

(** X12. The LBTypes offered for choice are the LBType values of the table,
    each of them once. *)
Theorem lbtype_options_distinct selected_lbtype data :
  "LBType" ∈ columns data →
  ∃ options view,
    filter_by_lbtype (figure:=figure) selected_lbtype data
    = ([st_subheader "Filter Data by LBType";
        st_multiselect "Select LBType(s)" options;
        st_dataframe view], Return data)
    ∧ NoDup options
    ∧ ∀ v, v ∈ options ↔ ∃ r, r ∈ rows data ∧ cell "LBType" r = v.
Proof.
  intros Hlb.
  destruct (unique_spec (cell "LBType" <$> rows data)) as [Hnd Hin].
  eexists _, _. split_and!; [by apply filter_by_lbtype_eq|done|].
  intros v. rewrite Hin, list_elem_of_fmap. split.
  - intros (r & -> & Hr). eauto.
  - intros (r & Hr & <-). eauto.
Qed.

(** X13. The bar chart of the funding-status analysis, on a table with the
    columns the analysis reads: the bar Not Funded counts the rows whose
    Tot equals 0, the bar Funded all the other rows (those with a missing
    Tot among them), and there is no other bar. A label that no row has
    gets no bar. *)
Theorem funding_chart_counts data :
  Forall (λ c, c ∈ columns data) ["Code"; "LBType"; "Sector"; "District"; "Tot"] →
  ∃ counts view data',
    funded_projects (figure:=figure) data
    = ([st_subheader "Funded vs Non-Funded Projects";
        st_bar_chart counts; st_dataframe view], Return data')
    ∧ default 0%nat (counts !! VStr "Not Funded")
      = length (filter (λ r, cell "Tot" r = VNum 0) (rows data))
    ∧ default 0%nat (counts !! VStr "Funded")
      = length (filter (λ r, cell "Tot" r ≠ VNum 0) (rows data))
    ∧ (∀ v, v ≠ VStr "Not Funded" → v ≠ VStr "Funded" → counts !! v = None)
    ∧ (∀ v, counts !! v ≠ Some 0%nat).
Proof.
  intros Hcols. eexists _, _, _. split; [by apply funded_projects_eq|].
  destruct (funding_counts (rows data)) as (H1 & H2 & H3).
  split_and!; [done..|].
  intros v Hv. apply value_counts_positive in Hv. lia.
Qed.

(** X14. The table shown by the funding-status analysis has the six columns
    Code, LBType, Sector, District, Tot and Funding Status, in that order,
    and one row per row of the table, in the same order, with that row's
    cells and its label; Difference and TotExp are not shown. *)
Theorem funding_view data :
  Forall (λ c, c ∈ columns data) ["Code"; "LBType"; "Sector"; "District"; "Tot"] →
  ∃ counts view data',
    funded_projects (figure:=figure) data
    = ([st_subheader "Funded vs Non-Funded Projects";
        st_bar_chart counts; st_dataframe view], Return data')
    ∧ columns view
      = ["Code"; "LBType"; "Sector"; "District"; "Tot"; "Funding Status"]
    ∧ Forall2 (λ r out : row,
          dom out = list_to_set (C:=gset string) (columns view)
          ∧ out !! "Funding Status" = Some (funding_label r)
          ∧ ∀ c, c ∈ ["Code"; "LBType"; "Sector"; "District"; "Tot"] →
                 out !! c = Some (cell c r))
        (rows data) (rows view).
Proof.
  intros Hcols. eexists _, _, _. split; [by apply funded_projects_eq|].
  cbn [columns rows]. split; [done|].
  rewrite setitem_rows, <-list_fmap_compose.
  apply Forall2_fmap_r, Forall_Forall2_diag, Forall_forall. intros r _.
  unfold compose. split_and!.
  - apply dom_reindex.
  - rewrite lookup_reindex, bool_decide_eq_true_2
      by (rewrite !elem_of_cons; tauto).
    by rewrite cell_insert_eq.
  - intros c Hc.
    rewrite lookup_reindex, bool_decide_eq_true_2
      by (rewrite !elem_of_cons in *; tauto).
    rewrite cell_insert_ne; [done|].
    rewrite !elem_of_cons, elem_of_nil in Hc. intros <-.
    repeat destruct Hc as [Hc|Hc]; done.
Qed.

End Views.

(** ** The script as a whole *)

Lemma call_Return {figure} (c : st_call figure) log a :
  call c = (log, Return a) → log = [c].
Proof. unfold call. by intros [= <-]. Qed.

Lemma last_app_two {A} (l : list A) a b : last (l ++ [a; b]) = Some b.
Proof. by rewrite (last_app_cons l [b] a). Qed.

Section Returned.
Context {figure : Type} {pandas : Pandas}.
Variable read_excel read_csv : string → outcome DataFrame.

Lemma table_required_columns files (log : list (st_call figure)) table :
  process_data read_excel read_csv files = (log, Return (Some table)) →
  Forall (λ c, c ∈ columns table) six_columns.
Proof.
  intros (_ & dfs & Hing & Hcat)%process_data_Some.
  apply pd_concat_columns in Hcat as [Hne ->].
  destruct Hing as [|file df' files dfs (df & _ & Hsub & Hclean) _]; [done|].
  apply Forall_forall. intros c Hc.
  apply (elem_of_union_columns _ df'); [left|].
  apply (clean_elem_of_columns _ _ c Hclean). left.
  by apply (issubset_required _ _ Hsub).
Qed.

Lemma unused_funds_log data (log : list (st_call figure)) data' :
  unused_funds data = (log, Return data') →
  ∃ view, log = [st_subheader "Projects Where Funds Were Not Used";
                 st_dataframe view]
          ∧ columns view = columns data.
Proof.
  unfold unused_funds. intros H.
  run_step H. run_step H. run_step H. run_step H. run_step H.
  apply call_Return in Hstep as ->.
  apply eval_Return in Hstep0 as [_ ->]. apply eval_Return in Hstep1 as [_ ->].
  apply eval_Return in Hstep2 as [_ ->]. apply call_Return in Hstep3 as ->.
  injection H as <- _. eexists. split; [reflexivity|done].
Qed.

(** X15. On a table that [process_data] returned, the LBType filter and the
    funding-status analysis run to their end: the columns they read are
    there, so neither raises. The unused-funds analysis runs to its end
    when no Tot of the table is a text. *)
Theorem analyses_run_on_returned_table files (log : list (st_call figure)) table
    selected_lbtype :
  process_data read_excel read_csv files = (log, Return (Some table)) →
  (∃ page, filter_by_lbtype (figure:=figure) selected_lbtype table
           = (page, Return table))
  ∧ (∃ page data', funded_projects (figure:=figure) table = (page, Return data'))
  ∧ (Forall (λ r, is_str (cell "Tot" r) = false) (rows table) →
     ∃ page, unused_funds (figure:=figure) table = (page, Return table)).
Proof.
  intros Hcols%table_required_columns. rewrite Forall_forall in Hcols.
  assert (∀ c, c ∈ six_columns → c ∈ columns table) as Hin by done.
  unfold six_columns in Hin. split_and!.
  - eexists. apply filter_by_lbtype_eq, Hin. rewrite !elem_of_cons. tauto.
  - eexists _, _. apply funded_projects_eq, Forall_forall.
    intros c Hc. apply Hin. rewrite !elem_of_cons, elem_of_nil in *. tauto.
  - intros Hnum. eexists.
    apply unused_funds_eq; [apply Hin..|done]; rewrite !elem_of_cons; tauto.
Qed.

End Returned.

Section Whole.
Context {figure : Type} {pandas : Pandas}.
Variable read_excel read_csv : string → outcome DataFrame.
Variable totals_figure district_figure : DataFrame → outcome figure.

(** X16. When the call of [process_data] on the uploaded files returns None or
    raises, the script ends there: after the title and the uploader it has
    put on the page what the call reported and nothing else, whatever
    analyses are chosen. *)
Theorem app_stops_without_table uploaded_files analysis_options selected_lbtype
    (log : list (st_call figure)) o :
  uploaded_files ≠ [] →
  process_data read_excel read_csv uploaded_files = (log, o) →
  (∀ table, o ≠ Return (Some table)) →
  app read_excel read_csv totals_figure district_figure
    uploaded_files analysis_options selected_lbtype
  = ([st_title "Multi-File Data Analysis App";
      st_file_uploader "Choose one or more files" ["xlsx"; "csv"]] ++ log, o).
Proof.
  intros Hne Hrun Hno. unfold app. do 2 apply run_call_bind.
  destruct uploaded_files as [|file files]; [done|].
  unfold mbind, run_mbind. rewrite Hrun.
  destruct o as [[table|]|e]; cbn [run_bind]; [by destruct (Hno table)| |done].
  unfold mret, run_mret, run_ret. by rewrite app_nil_r.
Qed.

(** X18. The column written by the funding-status analysis is seen by the
    analysis that runs after it on the same page: with both chosen, the
    table of unused funds, the last thing put on the page, has the column
    Funding Status. *)
Theorem funding_status_seen_by_unused_funds options selected_lbtype data
    (log : list (st_call figure)) data' :
  "Find Funded & Non-Funded Projects" ∈ options →
  "Find Projects Where Funds Were Not Used" ∈ options →
  analyses totals_figure district_figure options selected_lbtype data
  = (log, Return data') →
  ∃ view, last log = Some (st_dataframe view)
          ∧ "Funding Status" ∈ columns view.
Proof.
  intros Hfund Hunused H. unfold analyses in H.
  run_step H. run_step H. run_step H. run_step H.
  apply when_selected_Return in Hstep
    as [[-> _]|[->%filter_by_lbtype_Return _]];
  apply when_selected_Return in Hstep1
    as [[-> _]|[->%compare_totals_Return _]];
  apply when_selected_Return in Hstep2
    as [[-> _]|[->%district_wise_Return _]];
  apply when_selected_Return in Hstep0
    as [[_ ?]|[->%funded_projects_Return _]]; try done;
  apply when_selected_Return in H as [[_ ?]|[H _]]; try done;
  apply unused_funds_log in H as (view & -> & Hview);
  exists view;
  (split; [by rewrite !app_assoc, last_app_two|]);
  rewrite Hview; apply setitem_elem_of_columns; by right.
Qed.

End Whole.

(** ** More runs on the sample files *)

(** Decide a closed goal by evaluation. *)
Ltac by_evaluation := apply (bool_decide_unpack _); vm_compute; exact I.

Section MoreRuns.
Local Existing Instance exact_pandas.

Example process_data_a_remarks :
  process_data (figure:=()) sample_read_excel sample_read_csv_more
    [file_a; file_remarks] = ([], Return (Some table_a_remarks)).
Proof. vm_compute. reflexivity. Defined.


Example sample_frames_rectangular :
  Forall (λ file, ∀ df,
            decode sample_read_excel sample_read_csv_more file = Return df →
            rectangular df)
    ([file_a] ++ [file_remarks]).
Proof.
  repeat constructor; intros df Hdf; vm_compute in Hdf; injection Hdf as <-;
    repeat constructor; vm_compute; reflexivity.
Defined.

Lemma table_columns_witness :
  process_data (figure:=()) sample_read_excel sample_read_csv_more
    [file_a; file_remarks] = ([], Return (Some table_a_remarks))
  ∧ Forall (λ c, c ∈ columns table_a_remarks) (six_columns ++ ["Difference"])
  ∧ "Remarks" ∈ columns table_a_remarks.
Proof.
  destruct (table_columns sample_read_excel sample_read_csv_more
              [file_a; file_remarks] [] table_a_remarks process_data_a_remarks)
    as (Hsix & Hiff & _).
  split_and!; [exact process_data_a_remarks|exact Hsix|].
  apply Hiff. right. exists file_remarks, frame_remarks.
  split_and!; [right; left|vm_compute; reflexivity|by_evaluation].
Defined.

Lemma first_file_columns_first_witness :
  ∃ rest, columns table_a_remarks = (six_columns ++ ["Difference"]) ++ rest.
Proof.
  destruct (first_file_columns_first sample_read_excel sample_read_csv_more
              file_a [file_remarks] frame_a [] table_a_remarks
              process_data_a_remarks) as (rest & Hrest & _).
  { vm_compute; reflexivity. }
  by exists rest.
Defined.

Lemma process_data_outcome_witness :
  sample_process_data [file_a; file_no_sector]
  = ([st_error "no_sector.csv" {["Sector"]}], Return None)
  ∧ ∃ file df, file ∈ [file_a; file_no_sector]
               ∧ decode sample_read_excel sample_read_csv file = Return df
               ∧ issubset required_columns (columns df) = false.
Proof.
  assert (sample_process_data [file_a; file_no_sector]
          = ([st_error "no_sector.csv" {["Sector"]}], Return None)) as H
    by (vm_compute; reflexivity).
  split; [exact H|].
  destruct (process_data_outcome sample_read_excel sample_read_csv _ _ _ H)
    as [[Hlog _]|(_ & file & df & Hfile & Hdec & Hsub & _)]; [done|].
  by exists file, df.
Defined.

Lemma reader_exception_propagates_witness :
  sample_process_data ([file_a] ++ file_a_xlsx :: [file_b])
  = ([], Raise (Exception "BadZipFile" "File is not a zip file")).
Proof.
  apply (reader_exception_propagates sample_read_excel sample_read_csv
           [file_a] [table_a] file_a_xlsx [file_b]).
  - constructor; [exact ingests_file_a|constructor].
  - vm_compute; reflexivity.
Defined.

Lemma names_matter_by_suffix_only_witness :
  (sample_process_data [file_a; file_b]).2
  = (sample_process_data [file_txt; file_b]).2.
Proof.
  apply (names_matter_by_suffix_only sample_read_excel sample_read_csv
           [file_a; file_b] [file_txt; file_b]).
  repeat constructor; vm_compute; reflexivity.
Defined.

Lemma foreign_columns_filled_with_nan_witness :
  ∃ dfs blocks,
    Forall2 (λ file df,
               decode sample_read_excel sample_read_csv_more file = Return df)
      [file_a; file_remarks] dfs
    ∧ rows table_a_remarks = mjoin blocks
    ∧ Forall2 (λ df block,
          length block = length (notna_rows "Code" (rows df))
          ∧ Forall (λ out : row,
                ∀ c, c ∈ columns table_a_remarks → c ∉ columns df →
                     c ≠ "Difference" → out !! c = Some VNaN)
              block)
        dfs blocks.
Proof.
  exact (foreign_columns_filled_with_nan sample_read_excel sample_read_csv_more
           [file_a; file_remarks] [] table_a_remarks process_data_a_remarks
           sample_frames_rectangular).
Defined.


Lemma unused_funds_view_witness :
  unused_funds (figure:=()) table_unused
  = ([st_subheader "Projects Where Funds Were Not Used";
      st_dataframe {| columns := columns table_unused;
                      rows := filter (λ r, funds_unused r = true)
                                (rows table_unused) |}],
     Return table_unused)
  ∧ cell "Code" <$> filter (λ r, funds_unused r = true) (rows table_unused)
    = [VNum 1; VNum 5].
Proof.
  destruct (unused_funds_view (figure:=()) table_unused) as [Hview _].
  - by_evaluation.
  - by_evaluation.
  - repeat constructor.
  - split; [exact Hview|vm_compute; reflexivity].
Defined.

Lemma unused_funds_text_tot_witness :
  unused_funds (figure:=()) table_text_tot
  = ([st_subheader "Projects Where Funds Were Not Used"],
     Raise (TypeError "'>' not supported between instances of 'str' and 'int'")).
Proof.
  apply (unused_funds_text_tot table_text_tot
           (with_difference VNaN
              (record (VNum 9) "X" (VStr "abc") VNaN "S1" "D1"))).
  - by_evaluation.
  - by_evaluation.
  - right. left.
  - vm_compute; reflexivity.
Defined.

Lemma lbtype_filter_view_witness :
  filter_by_lbtype (figure:=()) [VStr "X"] table_unused
  = ([st_subheader "Filter Data by LBType";
      st_multiselect "Select LBType(s)"
        (unique (cell "LBType" <$> rows table_unused));
      st_dataframe
        {| columns := columns table_unused;
           rows := filter (λ r, cell "LBType" r ∈ [VStr "X"])
                     (rows table_unused) |}],
     Return table_unused).
Proof.
  apply (lbtype_filter_view (figure:=()) [VStr "X"] table_unused).
  by_evaluation.
Defined.

Lemma lbtype_options_distinct_witness :
  ∃ options view,
    filter_by_lbtype (figure:=()) [VStr "X"] table_unused
    = ([st_subheader "Filter Data by LBType";
        st_multiselect "Select LBType(s)" options;
        st_dataframe view], Return table_unused)
    ∧ NoDup options
    ∧ ∀ v, v ∈ options ↔ ∃ r, r ∈ rows table_unused ∧ cell "LBType" r = v.
Proof.
  apply (lbtype_options_distinct (figure:=()) [VStr "X"] table_unused).
  by_evaluation.
Defined.

Lemma funding_chart_counts_witness :
  ∃ counts view data',
    funded_projects (figure:=()) table_funding
    = ([st_subheader "Funded vs Non-Funded Projects";
        st_bar_chart counts; st_dataframe view], Return data')
    ∧ default 0%nat (counts !! VStr "Not Funded")
      = length (filter (λ r, cell "Tot" r = VNum 0) (rows table_funding))
    ∧ default 0%nat (counts !! VStr "Funded")
      = length (filter (λ r, cell "Tot" r ≠ VNum 0) (rows table_funding))
    ∧ (∀ v, v ≠ VStr "Not Funded" → v ≠ VStr "Funded" → counts !! v = None)
    ∧ (∀ v, counts !! v ≠ Some 0%nat).
Proof.
  apply (funding_chart_counts (figure:=()) table_funding).
  repeat constructor; by_evaluation.
Defined.

Lemma funding_view_witness :
  ∃ counts view data',
    funded_projects (figure:=()) table_funding
    = ([st_subheader "Funded vs Non-Funded Projects";
        st_bar_chart counts; st_dataframe view], Return data')
    ∧ columns view
      = ["Code"; "LBType"; "Sector"; "District"; "Tot"; "Funding Status"]
    ∧ Forall2 (λ r out : row,
          dom out = list_to_set (C:=gset string) (columns view)
          ∧ out !! "Funding Status" = Some (funding_label r)
          ∧ ∀ c, c ∈ ["Code"; "LBType"; "Sector"; "District"; "Tot"] →
                 out !! c = Some (cell c r))
        (rows table_funding) (rows view).
Proof.
  apply (funding_view (figure:=()) table_funding).
  repeat constructor; by_evaluation.
Defined.

Lemma analyses_run_on_returned_table_witness :
  (∃ page, filter_by_lbtype (figure:=()) [VStr "X"] table_ab
           = (page, Return table_ab))
  ∧ (∃ page data', funded_projects (figure:=()) table_ab = (page, Return data'))
  ∧ (Forall (λ r, is_str (cell "Tot" r) = false) (rows table_ab) →
     ∃ page, unused_funds (figure:=()) table_ab = (page, Return table_ab)).
Proof.
  apply (analyses_run_on_returned_table sample_read_excel sample_read_csv
           [file_a; file_b] [] table_ab [VStr "X"]).
  vm_compute; reflexivity.
Defined.

Lemma app_stops_without_table_witness :
  sample_app [file_a; file_no_sector] two_analyses []
  = ([st_title "Multi-File Data Analysis App";
      st_file_uploader "Choose one or more files" ["xlsx"; "csv"]]
     ++ [st_error "no_sector.csv" {["Sector"]}], Return None).
Proof.
  apply (app_stops_without_table sample_read_excel sample_read_csv
           sample_figure sample_figure [file_a; file_no_sector] two_analyses []).
  - done.
  - vm_compute; reflexivity.
  - done.
Defined.

Lemma funding_status_seen_by_unused_funds_witness :
  analyses sample_figure sample_figure two_analyses [] table_funding
  = (two_analyses_page, Return table_funding_status)
  ∧ ∃ view, last two_analyses_page = Some (st_dataframe view)
            ∧ "Funding Status" ∈ columns view.
Proof.
  assert (analyses sample_figure sample_figure two_analyses [] table_funding
          = (two_analyses_page, Return table_funding_status)) as H
    by (vm_compute; reflexivity).
  split; [exact H|].
  apply (funding_status_seen_by_unused_funds sample_figure sample_figure
           two_analyses [] table_funding two_analyses_page table_funding_status);
    [by_evaluation|by_evaluation|exact H].
Defined.

End MoreRuns.
